(** * go-bamboo: the plan, raw and result sub-clients
       (plans.go, raw.go, results.go)

    A shallow embedding of the Plans, Raw and Results resource sub-clients
    of the Bamboo REST client, the properties of them that the
    specification states, and further properties that the code shows.

    Conventions of the embedding.
    - A Go [int] is a [Z]; none of the functions below does arithmetic on
      one, so no wrap-around appears.
    - A Go pointer is an [option]: [None] is the nil pointer, and reading a
      field through a nil pointer panics.
    - A Go slice is a [list] and the nil slice is [[]]; a Go
      [map[string]string] is a [gmap string string] and the nil map is [∅].
    - A method that talks to the server is a computation over the state of
      the network; a computation either returns or panics. *)

From Stdlib Require Import ZArith DecimalString.
From stdpp Require Import base option numbers strings list gmap fin_maps.

Open Scope Z_scope.
Open Scope string_scope.
Open Scope list_scope.

(** ** Errors *)

(** The values of Go's [error] interface that the two files produce or pass
    on: [&simpleError{msg}] (the declaration of [simpleError] is not among
    the sources; the files build it from a message), [fmt.Errorf(msg)], and
    whatever the client (request construction, transport, JSON decoding)
    reports. *)
Inductive error : Type :=
  | simpleError (msg : string)
  | fmtError (msg : string)
  | clientError (msg : string).

(** [err.Error()] *)
Definition Error (e : error) : string :=
  match e with
  | simpleError m => m
  | fmtError m => m
  | clientError m => m
  end.

(** [strconv.Itoa], and the [%d] verb of [fmt.Sprintf] on an [int]. *)
Definition Itoa (n : Z) : string := NilZero.string_of_int (Z.to_int n).

(** ** Wire shapes (plans.go, lines 12-62) *)

(** Modelled from the spec: the declaration of [Link] is not among the
    sources; the spec names its [href] field. *)
Record Link : Type := { HREF : string; Rel : string }.

(** Modelled from the spec: the declaration of [ResourceMetadata] is not
    among the sources; it is carried by [PlanResponse] and never read. *)
Record ResourceMetadata : Type := { Expand : string; ResourceLink : option Link }.

(** Modelled from the spec: the declaration of [CollectionMetadata] is not
    among the sources; the spec gives the envelope fields [size],
    [max-results] and [start-index]. *)
Record CollectionMetadata : Type := {
  Size : Z;
  MaxResult : Z;
  StartIndex : Z
}.

Record PlanCreateBranchOptions : Type := { VCSBranch : string }.

Record PlanKey : Type := { PlanKey_Key : string }.

Record PlanVariable : Type := {
  Key : string;
  Value : string;
  VariableType : string;
  IsPassword : bool
}.

Definition VariableList : Type := list PlanVariable.

Record VariableContext : Type := {
  VariableContext_Size : Z;
  VariableContext_MaxResults : Z;
  VariableContext_StartIndex : Z;
  VariableContext_Variable : VariableList
}.

Record Plan : Type := {
  ShortName : string;
  ShortKey : string;
  Plan_Type : string;
  Enabled : bool;
  Plan_Link : option Link;
  Plan_Key : string;
  Name : string;
  Plan_PlanKey : option PlanKey;
  Plan_VariableContext : option VariableContext
}.

(** [Plans] embeds a [*CollectionMetadata]; [PlanList] is a [[]*Plan]. *)
Record Plans : Type := {
  Plans_CollectionMetadata : option CollectionMetadata;
  PlanList : list (option Plan)
}.

Record PlanResponse : Type := {
  PlanResponse_ResourceMetadata : option ResourceMetadata;
  PlanResponse_Plans : option Plans
}.

(** The zero values [Plan{}] and [PlanResponse{}]. *)
Definition Plan_zero : Plan :=
  {| ShortName := ""; ShortKey := ""; Plan_Type := ""; Enabled := false;
     Plan_Link := None; Plan_Key := ""; Name := ""; Plan_PlanKey := None;
     Plan_VariableContext := None |}.

Definition PlanResponse_zero : PlanResponse :=
  {| PlanResponse_ResourceMetadata := None; PlanResponse_Plans := None |}.

(** ** The variable list helpers (plans.go, lines 237-263) *)

(** [VariableList.GetVarValueE]: the value of the first entry whose key is
    [name], or the error [not found]. *)
Fixpoint GetVarValueE (vl : VariableList) (name : string) : string * option error :=
  match vl with
  | [] => ("", Some (fmtError "not found"))
  | v :: vl' =>
      if String.eqb (Key v) name then (Value v, None)
      else GetVarValueE vl' name
  end.

(** [VariableList.GetVarValue]: the loop returns the literal [""] at the
    first entry whose key is [name] (line 251), and [""] after the loop. *)
Fixpoint GetVarValue (vl : VariableList) (name : string) : string :=
  match vl with
  | [] => ""
  | v :: vl' =>
      if String.eqb (Key v) name then ""
      else GetVarValue vl' name
  end.

(** [VariableList.ToMap]: the loop body [retMap[v.Key] = v.Value], run from
    the first entry to the last over the map built so far. *)
Fixpoint ToMap_loop (retMap : gmap string string) (vl : VariableList) : gmap string string :=
  match vl with
  | [] => retMap
  | v :: vl' => ToMap_loop (<[Key v := Value v]> retMap) vl'
  end.

Definition ToMap (vl : VariableList) : gmap string string := ToMap_loop ∅ vl.

(** ** Requests and responses (net/http, net/url) *)

(** [url.Values] is a [map[string][]string]. A request keeps its query in
    this parsed form: [request.URL.Query()] reads the field and
    [request.URL.RawQuery = values.Encode()] writes it. *)
Definition Values_Add (key value : string) (v : gmap string (list string))
    : gmap string (list string) :=
  <[key := (default [] (v !! key) ++ [value])%list]> v.

(** [Values.Get]: the first value stored under [key], or [""]. *)
Definition Values_Get (key : string) (v : gmap string (list string)) : string :=
  match v !! key with
  | Some (x :: _) => x
  | _ => ""
  end.

Record URL : Type := {
  Path : string;
  RawQuery : gmap string (list string)
}.

Record Request : Type := {
  Method : string;
  Request_URL : URL;
  Header : gmap string (list string)
}.

(** [ioutil.ReadAll(response.Body)] drains the stream; the body is kept as
    what draining yields: the bytes read and the error that stopped the
    read, if any. *)
Record Response : Type := {
  StatusCode : Z;
  Status : string;
  Body : string * option error
}.

Definition ReadAll (body : string * option error) : string * option error := body.

Definition MethodGet : string := "GET".
Definition MethodPut : string := "PUT".
Definition MethodDelete : string := "DELETE".

(** [values := request.URL.Query(); values.Add(key, value);
     request.URL.RawQuery = values.Encode()] *)
Definition add_query (key value : string) (request : Request) : Request :=
  {| Method := Method request;
     Request_URL :=
       {| Path := Path (Request_URL request);
          RawQuery := Values_Add key value (RawQuery (Request_URL request)) |};
     Header := Header request |}.

(** [request.Header.Add(key, value)] *)
Definition add_header (key value : string) (request : Request) : Request :=
  {| Method := Method request;
     Request_URL := Request_URL request;
     Header := Values_Add key value (Header request) |}.

(** [strings.TrimPrefix] *)
Definition TrimPrefix (s prefix : string) : string :=
  if String.prefix prefix s
  then String.substring (String.length prefix)
         (String.length s - String.length prefix)%nat s
  else s.

(** ** The client

    The client itself (request construction and dispatch) is not among the
    sources; the sub-clients are embedded over an arbitrary one. [W] is the
    state of the network and of the server behind it. *)

(** The destinations that plans.go hands to [Do]: [nil], a [*PlanResponse]
    and a [*Plan]. *)
Inductive dest : Type := into_nil | into_PlanResponse | into_Plan.

Definition dest_ty (d : dest) : Type :=
  match d with
  | into_nil => unit
  | into_PlanResponse => PlanResponse
  | into_Plan => Plan
  end.

Record Client (W : Type) : Type := {
  (** [BaseUrl.String()] *)
  BaseUrl : string;
  (** [NewRequest(method, urlStr, body)]: the request pointer and the
      error. Both files pass the body [nil]. *)
  NewRequest : string -> string -> option string -> option Request * option error;
  (** [Do(request, v)]: the response, the destination after decoding into
      it, and the error. The request is a pointer. *)
  Do : forall d : dest, option Request -> dest_ty d -> W ->
       (option Response * dest_ty d * option error) * W;
  (** [RawRequest(method, urlStr, body)] *)
  RawRequest : string -> string -> option string -> option Request * option error;
  (** [RawDo(request, nil)]: the response, its body unread, and the error. *)
  RawDo : option Request -> W -> (option Response * option error) * W
}.

Arguments BaseUrl {W} _.
Arguments NewRequest {W} _ _ _ _.
Arguments Do {W} _ _ _ _ _.
Arguments RawRequest {W} _ _ _ _.
Arguments RawDo {W} _ _ _.

(** The state a call runs in: the network, and two logs kept for the
    statements below: the (method, path) of every request built, and every
    request dispatched, oldest first. *)
Record Net (W : Type) : Type := {
  server : W;
  built : list (string * string);
  sent : list (option Request)
}.

Arguments server {W} _.
Arguments built {W} _.
Arguments sent {W} _.

(** A call returns a value or panics. *)
Inductive Outcome (A : Type) : Type :=
  | Returned (a : A)
  | Panicked.

Arguments Returned {A} _.
Arguments Panicked {A}.

Definition Go (W A : Type) : Type := Net W -> Outcome A * Net W.

Definition ret {W A : Type} (a : A) : Go W A := fun s => (Returned a, s).

Definition bind {W A B : Type} (m : Go W A) (k : A -> Go W B) : Go W B :=
  fun s =>
    match m s with
    | (Returned a, s') => k a s'
    | (Panicked, s') => (Panicked, s')
    end.

Definition panic {W A : Type} : Go W A := fun s => (Panicked, s).

(** Reading through a pointer: a nil pointer dereference panics. *)
Definition deref {W A : Type} (p : option A) : Go W A :=
  match p with
  | Some a => ret a
  | None => panic
  end.

(** [Go W] with stdpp's monad notations: [x ← m; k] and ['(x, y) ← m; k]. *)
#[global] Instance Go_ret {W : Type} : MRet (Go W) := fun A a => ret a.
#[global] Instance Go_bind {W : Type} : MBind (Go W) := fun A B k m => bind m k.

(** ** The plan sub-client (plans.go, lines 64-235) *)

(** Modelled from the spec: [emptyStrings] is not among the sources. The
    spec says that branch creation validates that both [planKey] and
    [branchName] are non-empty: the helper holds when one of its arguments
    is the empty string. *)
Definition emptyStrings (strs : list string) : bool :=
  existsb (String.eqb "") strs.

Section SubClients.

Context {W : Type} (client : Client W).

(** [p.client.NewRequest(method, urlStr, nil)], logged. *)
Definition client_NewRequest (method urlStr : string)
    : Go W (option Request * option error) :=
  fun s =>
    (Returned (NewRequest client method urlStr None),
     {| server := server s;
        built := built s ++ [(method, urlStr)];
        sent := sent s |}).

(** [p.client.Do(request, v)], logged. *)
Definition client_Do (d : dest) (request : option Request) (v : dest_ty d)
    : Go W (option Response * dest_ty d * option error) :=
  fun s =>
    let '(r, w) := Do client d request v (server s) in
    (Returned r,
     {| server := w; built := built s; sent := sent s ++ [request] |}).

(** [PlanService.GetNumber] (lines 97-119) *)
Definition GetNumber : Go W (Z * option Response * option error) :=
  '(request, err) ← client_NewRequest MethodGet "plan.json";
  match err with
  | Some e => mret (0, None, Some e)
  | None =>
      request ← deref request;
      let request := add_query "max-results" "1" request in
      '(response, planResp, err) ← client_Do into_PlanResponse (Some request) PlanResponse_zero;
      match err with
      | Some e => mret (0, response, Some e)
      | None =>
          r ← deref response;
          if negb (Z.eqb (StatusCode r) 200)
          then mret (0, response,
                     Some (simpleError
                       ("Getting the number of plans returned " +:+ Status r)))
          else
            plans ← deref (PlanResponse_Plans planResp);
            meta ← deref (Plans_CollectionMetadata plans);
            mret (Size meta, response, None)
      end
  end.

(** [PlanService.CreateBranch] (lines 65-94) *)
Definition CreateBranch (planKey branchName : string)
    (options : option PlanCreateBranchOptions)
    : Go W (bool * option Response * option error) :=
  if negb (emptyStrings [planKey; branchName])
  then
    let u := "plan/" +:+ planKey +:+ "/branch/" +:+ branchName +:+ ".json" in
    '(request, err) ← client_NewRequest MethodPut u;
    match err with
    | Some e => mret (false, None, Some e)
    | None =>
        request ←
          match options with
          | Some o =>
              if negb (String.eqb (VCSBranch o) "")
              then r ← deref request;
                   mret (Some (add_query "vcsBranch" (VCSBranch o) r))
              else mret request
          | None => mret request
          end;
        '(response, _, err) ← client_Do into_nil request tt;
        match err with
        | Some e => mret (false, response, Some e)
        | None =>
            r ← deref response;
            if negb (Z.eqb (StatusCode r) 200)
            then mret (false, response,
                       Some (simpleError
                         ("Create returned " +:+ Itoa (StatusCode r))))
            else mret (true, response, None)
        end
    end
  else
    mret (false, None,
          Some (simpleError "Project key and/or branch name cannot be empty")).

(** [PlanService.List] (lines 122-149) *)
Definition List : Go W (list (option Plan) * option Response * option error) :=
  '(numPlans, resp, err) ← GetNumber;
  match err with
  | Some e => mret ([], resp, Some e)
  | None =>
      '(request, err) ← client_NewRequest MethodGet "plan.json";
      match err with
      | Some e => mret ([], None, Some e)
      | None =>
          request ← deref request;
          let request := add_query "max-results" (Itoa numPlans) request in
          '(response, planResp, err) ←
            client_Do into_PlanResponse (Some request) PlanResponse_zero;
          match err with
          | Some e => mret ([], response, Some e)
          | None =>
              r ← deref response;
              if negb (Z.eqb (StatusCode r) 200)
              then mret ([], response,
                         Some (simpleError
                           ("Getting plan information returned " +:+ Status r)))
              else
                plans ← deref (PlanResponse_Plans planResp);
                mret (PlanList plans, response, None)
          end
      end
  end.

(** The loop [for i, p := range plans { keys[i] = p.Key }] from index [i]
    on, over the slice [keys] made with [len(plans)] empty strings. *)
Fixpoint ListKeys_loop (i : nat) (plans : list (option Plan)) (keys : list string)
    : Go W (list string) :=
  match plans with
  | [] => mret keys
  | p :: plans' =>
      p ← deref p;
      ListKeys_loop (S i) plans' (<[i := Plan_Key p]> keys)
  end.

(** [PlanService.ListKeys] (lines 152-163) *)
Definition ListKeys : Go W (list string * option Response * option error) :=
  '(plans, response, err) ← List;
  match err with
  | Some e => mret ([], response, Some e)
  | None =>
      keys ← ListKeys_loop 0 plans (replicate (length plans) "");
      mret (keys, response, None)
  end.

(** The loop [for i, p := range plans { names[i] = p.ShortName }]. *)
Fixpoint ListNames_loop (i : nat) (plans : list (option Plan)) (names : list string)
    : Go W (list string) :=
  match plans with
  | [] => mret names
  | p :: plans' =>
      p ← deref p;
      ListNames_loop (S i) plans' (<[i := ShortName p]> names)
  end.

(** [PlanService.ListNames] (lines 166-177) *)
Definition ListNames : Go W (list string * option Response * option error) :=
  '(plans, response, err) ← List;
  match err with
  | Some e => mret ([], response, Some e)
  | None =>
      names ← ListNames_loop 0 plans (replicate (length plans) "");
      mret (names, response, None)
  end.

(** The loop [for _, p := range plans { planMap[p.Key] = p.ShortName }]. *)
Fixpoint NamesMap_loop (plans : list (option Plan)) (planMap : gmap string string)
    : Go W (gmap string string) :=
  match plans with
  | [] => mret planMap
  | p :: plans' =>
      p ← deref p;
      NamesMap_loop plans' (<[Plan_Key p := ShortName p]> planMap)
  end.

(** [PlanService.NamesMap] (lines 180-192) *)
Definition NamesMap
    : Go W (gmap string string * option Response * option error) :=
  '(plans, response, err) ← List;
  match err with
  | Some e => mret (∅, response, Some e)
  | None =>
      planMap ← NamesMap_loop plans ∅;
      mret (planMap, response, None)
  end.

(** [PlanService.Disable] (lines 195-207) *)
Definition Disable (planKey : string) : Go W (option Response * option error) :=
  let u := "plan/" +:+ planKey +:+ "/enable" in
  '(request, err) ← client_NewRequest MethodDelete u;
  match err with
  | Some e => mret (None, Some e)
  | None =>
      '(response, _, err) ← client_Do into_nil request tt;
      match err with
      | Some e => mret (response, Some e)
      | None => mret (response, None)
      end
  end.

(** [PlanService.GetVars] (lines 210-235) *)
Definition GetVars (planKey : string)
    : Go W (VariableList * option Response * option error) :=
  let planResp := Plan_zero in
  let u := "plan/" +:+ planKey in
  '(request, err) ← client_NewRequest MethodGet u;
  match err with
  | Some e => mret ([], None, Some e)
  | None =>
      request ← deref request;
      let request := add_query "expand" "variableContext" request in
      '(response, planResp, err) ← client_Do into_Plan (Some request) planResp;
      match err with
      | Some e => mret ([], response, Some e)
      | None =>
          vc ← deref (Plan_VariableContext planResp);
          if negb (Z.eqb (VariableContext_MaxResults vc) (VariableContext_Size vc))
          then mret (VariableContext_Variable vc, response,
                     Some (fmtError
                       ("not all results were returned: " +:+
                        Itoa (VariableContext_Size vc) +:+ " out of " +:+
                        Itoa (VariableContext_MaxResults vc))))
          else mret (VariableContext_Variable vc, response, None)
      end
  end.

(** ** The raw sub-client (raw.go) *)

(** [p.client.RawRequest(method, urlStr, nil)], logged. *)
Definition client_RawRequest (method urlStr : string)
    : Go W (option Request * option error) :=
  fun s =>
    (Returned (RawRequest client method urlStr None),
     {| server := server s;
        built := built s ++ [(method, urlStr)];
        sent := sent s |}).

(** [p.client.RawDo(request, nil)], logged. *)
Definition client_RawDo (request : option Request)
    : Go W (option Response * option error) :=
  fun s =>
    let '(r, w) := RawDo client request (server s) in
    (Returned r,
     {| server := w; built := built s; sent := sent s ++ [request] |}).

(** [RawService.GetRaw] (lines 19-44) *)
Definition GetRaw (path : string)
    : Go W (string * option Response * option error) :=
  let path := TrimPrefix path (BaseUrl client) in
  '(request, err) ← client_RawRequest MethodGet path;
  match err with
  | Some e => mret ("", None, Some e)
  | None =>
      request ← deref request;
      let request :=
        add_header "Content-Type" "application/x-www-form-urlencoded" request in
      '(response, err) ← client_RawDo (Some request);
      match err with
      | Some e => mret ("", None, Some e)
      | None =>
          r ← deref response;
          if negb (Z.eqb (StatusCode r) 200)
          then mret ("", None,
                     Some (simpleError ("Get returned " +:+ Itoa (StatusCode r))))
          else
            let '(body, err) := ReadAll (Body r) in
            match err with
            | Some e =>
                mret ("", response,
                      Some (simpleError ("Read body " +:+ Error e)))
            | None => mret (body, response, None)
            end
      end
  end.

End SubClients.

(** ** Vocabulary for the statements *)

(** The request [GetNumber] dispatches, given what [NewRequest] built. *)
Definition probe (req0 : Request) : Request := add_query "max-results" "1" req0.

(** The request [List] dispatches after the probe returned [numPlans]. *)
Definition fetch (numPlans : Z) (req0 : Request) : Request :=
  add_query "max-results" (Itoa numPlans) req0.

(** The request [GetVars] dispatches, given what [NewRequest] built. *)
Definition expand_request (req0 : Request) : Request :=
  add_query "expand" "variableContext" req0.

(** The request [GetRaw] dispatches, given what [RawRequest] built. *)
Definition form_request (req0 : Request) : Request :=
  add_header "Content-Type" "application/x-www-form-urlencoded" req0.

(** What a call that built one request and dispatched [request] leaves. *)
Definition after_dispatch {W : Type} (s : Net W) (method urlStr : string)
    (request : option Request) (w' : W) : Net W :=
  {| server := w';
     built := built s ++ [(method, urlStr)];
     sent := sent s ++ [request] |}.

(** An entry of the list is reduced to its key and value by [ToMap]. *)
Definition key_value (v : PlanVariable) : string * string := (Key v, Value v).

(** The short name of the last plan of [ps] whose key is [k]. *)
Definition last_name (k : string) (ps : list Plan) : option string :=
  ShortName <$> last (filter (fun p => Plan_Key p = k) ps).

(** What a call that built one request and dispatched none leaves. *)
Definition after_build {W : Type} (s : Net W) (method urlStr : string) : Net W :=
  {| server := server s;
     built := built s ++ [(method, urlStr)];
     sent := sent s |}.

(** The request [CreateBranch] dispatches, given what [NewRequest] built:
    the [vcsBranch] parameter is added when options are given and name a
    branch. *)
Definition branch_request (options : option PlanCreateBranchOptions)
    (req0 : Request) : Request :=
  match options with
  | Some o =>
      if String.eqb (VCSBranch o) "" then req0
      else add_query "vcsBranch" (VCSBranch o) req0
  | None => req0
  end.

(** ** Build results (results.go)

    Wire shapes, lines 9-152. A field is named after its struct and its Go
    name. [Result], [Stages], [Stage] and [Results] refer to one another
    through slices. *)

Definition PlanExpandResults : string := "stages.stage.results.result".
Definition PlanExpandVariables : string := "variables".
Definition PlanExpandArtifacts : string := "artifacts".
Definition PlanExpandFailedTestResults : string :=
  "stages.stage.results.result.testResults.failedTests.testResult.errors".

Record Change : Type := {
  Change_Author : string;
  Change_ChangeSetID : string
}.

Record ChangeSet : Type := { ChangeSet_Set : list Change }.

Record Artifact : Type := {
  Artifact_Name : string;
  Artifact_Link : Link;
  Artifact_ProducerJobKey : string;
  Artifact_Shared : bool;
  Artifact_Size : Z;
  Artifact_PrettySizeDescription : string
}.

Record Artifacts : Type := {
  Artifacts_CollectionMetadata : CollectionMetadata;
  Artifacts_Artifact : list Artifact
}.

Record ErrorMessage : Type := { ErrorMessage_Message : string }.

Record TestError : Type := {
  TestError_CollectionMetadata : CollectionMetadata;
  TestError_Error : list ErrorMessage
}.

Record TestDetail : Type := {
  TestDetail_TestCaseId : Z;
  TestDetail_ClassName : string;
  TestDetail_MethodName : string;
  TestDetail_Status : string;
  TestDetail_Duration : Z;
  TestDetail_DurationInSeconds : Z;
  TestDetail_Errors : TestError
}.

Record TestResult : Type := {
  TestResult_CollectionMetadata : CollectionMetadata;
  TestResult_TestResult : list TestDetail
}.

Record TestResults : Type := {
  TestResults_Expand : string;
  TestResults_All : Z;
  TestResults_Successful : Z;
  TestResults_Failed : Z;
  TestResults_NewFailed : Z;
  TestResults_ExistingFailed : Z;
  TestResults_Fixed : Z;
  TestResults_Quarantined : Z;
  TestResults_Skipped : Z;
  TestResults_AllTests : TestResult;
  TestResults_SuccessfulTests : TestResult;
  TestResults_FailedTests : TestResult;
  TestResults_NewFailedTests : TestResult;
  TestResults_ExistingFailedTests : TestResult;
  TestResults_FixedTests : TestResult;
  TestResults_QuarantinedTests : TestResult;
  TestResults_SkippedTests : TestResult
}.

Inductive Result : Type := Build_Result {
  Result_ChangeSet : ChangeSet;
  Result_ID : Z;
  Result_PlanName : string;
  Result_ProjectName : string;
  Result_BuildResultKey : string;
  Result_LifeCycleState : string;
  Result_BuildStartedTime : string;
  Result_BuildCompletedTime : string;
  Result_BuildDurationInSeconds : Z;
  Result_VcsRevisionKey : string;
  Result_BuildTestSummary : string;
  Result_SuccessfulTestCount : Z;
  Result_FailedTestCount : Z;
  Result_QuarantinedTestCount : Z;
  Result_SkippedTestCount : Z;
  Result_Finished : bool;
  Result_Successful : bool;
  Result_BuildReason : string;
  Result_ReasonSummary : string;
  Result_Key : string;
  Result_State : string;
  Result_BuildState : string;
  Result_Number : Z;
  Result_BuildNumber : Z;
  Result_Stages : Stages;
  Result_LogFiles : list string;
  Result_Artifacts : Artifacts;
  Result_Master : Plan;
  Result_Plan : Plan;
  Result_TestResults : TestResults
}
with Stages : Type := Build_Stages {
  Stages_CollectionMetadata : CollectionMetadata;
  Stages_Stage : list Stage
}
with Stage : Type := Build_Stage {
  Stage_Expand : string;
  Stage_Name : string;
  Stage_Description : string;
  Stage_Id : Z;
  Stage_LifeCycleState : string;
  Stage_State : string;
  Stage_DisplayClass : string;
  Stage_DisplayMessage : string;
  Stage_CollapsedByDefault : bool;
  Stage_Manual : bool;
  Stage_Restartable : bool;
  Stage_Runnable : bool;
  Stage_Results : Results
}
with Results : Type := Build_Results {
  Results_CollectionMetadata : CollectionMetadata;
  Results_Result : list Result
}.

Record ResultsResponse : Type := {
  ResultsResponse_ResourceMetadata : option ResourceMetadata;
  ResultsResponse_Results : option Results
}.

(** The zero values [Result{}] and [ResultsResponse{}]. *)
Definition CollectionMetadata_zero : CollectionMetadata :=
  {| Size := 0; MaxResult := 0; StartIndex := 0 |}.

Definition TestResult_zero : TestResult :=
  {| TestResult_CollectionMetadata := CollectionMetadata_zero;
     TestResult_TestResult := [] |}.

Definition TestResults_zero : TestResults :=
  {| TestResults_Expand := ""; TestResults_All := 0;
     TestResults_Successful := 0; TestResults_Failed := 0;
     TestResults_NewFailed := 0; TestResults_ExistingFailed := 0;
     TestResults_Fixed := 0; TestResults_Quarantined := 0;
     TestResults_Skipped := 0;
     TestResults_AllTests := TestResult_zero;
     TestResults_SuccessfulTests := TestResult_zero;
     TestResults_FailedTests := TestResult_zero;
     TestResults_NewFailedTests := TestResult_zero;
     TestResults_ExistingFailedTests := TestResult_zero;
     TestResults_FixedTests := TestResult_zero;
     TestResults_QuarantinedTests := TestResult_zero;
     TestResults_SkippedTests := TestResult_zero |}.

Definition Result_zero : Result :=
  {| Result_ChangeSet := {| ChangeSet_Set := [] |};
     Result_ID := 0; Result_PlanName := ""; Result_ProjectName := "";
     Result_BuildResultKey := ""; Result_LifeCycleState := "";
     Result_BuildStartedTime := ""; Result_BuildCompletedTime := "";
     Result_BuildDurationInSeconds := 0; Result_VcsRevisionKey := "";
     Result_BuildTestSummary := ""; Result_SuccessfulTestCount := 0;
     Result_FailedTestCount := 0; Result_QuarantinedTestCount := 0;
     Result_SkippedTestCount := 0; Result_Finished := false;
     Result_Successful := false; Result_BuildReason := "";
     Result_ReasonSummary := ""; Result_Key := ""; Result_State := "";
     Result_BuildState := ""; Result_Number := 0; Result_BuildNumber := 0;
     Result_Stages :=
       {| Stages_CollectionMetadata := CollectionMetadata_zero;
          Stages_Stage := [] |};
     Result_LogFiles := [];
     Result_Artifacts :=
       {| Artifacts_CollectionMetadata := CollectionMetadata_zero;
          Artifacts_Artifact := [] |};
     Result_Master := Plan_zero;
     Result_Plan := Plan_zero;
     Result_TestResults := TestResults_zero |}.

Definition ResultsResponse_zero : ResultsResponse :=
  {| ResultsResponse_ResourceMetadata := None;
     ResultsResponse_Results := None |}.

(** [strings.Join] *)
Fixpoint Join (elems : list string) (sep : string) : string :=
  match elems with
  | [] => ""
  | a :: rest =>
      match rest with
      | [] => a
      | _ :: _ => a +:+ sep +:+ Join rest sep
      end
  end.

(** [Values.Set]: the value replaces whatever was stored under [key]. *)
Definition Values_Set (key value : string) (v : gmap string (list string))
    : gmap string (list string) :=
  <[key := [value]]> v.

(** [q := request.URL.Query(); q.Set(key, value);
     request.URL.RawQuery = q.Encode()] *)
Definition set_query (key value : string) (request : Request) : Request :=
  {| Method := Method request;
     Request_URL :=
       {| Path := Path (Request_URL request);
          RawQuery := Values_Set key value (RawQuery (Request_URL request)) |};
     Header := Header request |}.

(** The destinations that results.go hands to [Do]: a [*Result] and a
    [*ResultsResponse]. *)
Inductive result_dest : Type := into_Result | into_ResultsResponse.

Definition result_dest_ty (d : result_dest) : Type :=
  match d with
  | into_Result => Result
  | into_ResultsResponse => ResultsResponse
  end.

(** What the result sub-client uses and the sources do not hold: the
    client, its [Do] at the two destinations above, and the two path
    helpers of the package. *)
Record ResultClient (W : Type) : Type := {
  plain : Client W;
  DoResult : forall d : result_dest, option Request -> result_dest_ty d -> W ->
             (option Response * result_dest_ty d * option error) * W;
  numberedResultURL : string -> string;
  listResultsURL : string -> string
}.

Arguments plain {W} _.
Arguments DoResult {W} _ _ _ _ _.
Arguments numberedResultURL {W} _ _.
Arguments listResultsURL {W} _ _.

Section ResultService.

Context {W : Type} (rc : ResultClient W).

(** [r.client.Do(request, v)] at a result destination, logged. *)
Definition client_DoResult (d : result_dest) (request : option Request)
    (v : result_dest_ty d)
    : Go W (option Response * result_dest_ty d * option error) :=
  fun s =>
    let '(r, w) := DoResult rc d request v (server s) in
    (Returned r,
     {| server := w; built := built s; sent := sent s ++ [request] |}).

(** [ResultService.NumberedResult] (lines 161-178) *)
Definition NumberedResult (key : string)
    : Go W (option Result * option Response * option error) :=
  '(request, err) ← client_NewRequest (plain rc) MethodGet
                       (numberedResultURL rc key);
  match err with
  | Some e => mret (None, None, Some e)
  | None =>
      '(response, result, err) ← client_DoResult into_Result request Result_zero;
      match err with
      | Some e => mret (None, response, Some e)
      | None =>
          r ← deref response;
          if negb (Z.eqb (StatusCode r) 200)
          then mret (None, response,
                     Some (simpleError
                       ("API returned unexpected status code " +:+
                        Itoa (StatusCode r))))
          else mret (Some result, response, err)
      end
  end.

(** [ResultService.LatestResult] (lines 155-158) *)
Definition LatestResult (key : string)
    : Go W (option Result * option Response * option error) :=
  '(result, resp, err) ← NumberedResult (key +:+ "-latest");
  mret (result, resp, err).

(** [ResultService.ListResults] (lines 181-198) *)
Definition ListResults (key : string)
    : Go W (list Result * option Response * option error) :=
  '(request, err) ← client_NewRequest (plain rc) MethodGet
                       (listResultsURL rc key);
  match err with
  | Some e => mret ([], None, Some e)
  | None =>
      '(response, result, err) ←
        client_DoResult into_ResultsResponse request ResultsResponse_zero;
      match err with
      | Some e => mret ([], response, Some e)
      | None =>
          r ← deref response;
          if negb (Z.eqb (StatusCode r) 200)
          then mret ([], response,
                     Some (simpleError
                       ("API returned unexpected status code " +:+
                        Itoa (StatusCode r))))
          else
            results ← deref (ResultsResponse_Results result);
            mret (Results_Result results, response, err)
      end
  end.

(** [ResultService.GetExpanded] (lines 200-226) *)
Definition GetExpanded (key : string) (expand : list string)
    : Go W (option Result * option Response * option error) :=
  let pathStr := "result/" +:+ key in
  '(request, err) ← client_NewRequest (plain rc) MethodGet pathStr;
  match err with
  | Some e => mret (None, None, Some e)
  | None =>
      let expandQ := Join expand "," in
      request ← deref request;
      let request :=
        set_query "includeAllStates" "true" (set_query "expand" expandQ request) in
      '(response, result, err) ←
        client_DoResult into_Result (Some request) Result_zero;
      match err with
      | Some e => mret (None, response, Some e)
      | None =>
          r ← deref response;
          if negb (Z.eqb (StatusCode r) 200)
          then mret (None, response,
                     Some (simpleError
                       ("API returned unexpected status code " +:+
                        Itoa (StatusCode r))))
          else mret (Some result, response, err)
      end
  end.

(** [ResultService.GetLatestExpanded] (lines 228-254) *)
Definition GetLatestExpanded (key : string) (expand : list string)
    : Go W (option Result * option Response * option error) :=
  let pathStr := ("result/" +:+ key) +:+ "-latest" in
  '(request, err) ← client_NewRequest (plain rc) MethodGet pathStr;
  match err with
  | Some e => mret (None, None, Some e)
  | None =>
      let expandQ := Join expand "," in
      request ← deref request;
      let request :=
        set_query "includeAllStates" "true" (set_query "expand" expandQ request) in
      '(response, result, err) ←
        client_DoResult into_Result (Some request) Result_zero;
      match err with
      | Some e => mret (None, response, Some e)
      | None =>
          r ← deref response;
          if negb (Z.eqb (StatusCode r) 200)
          then mret (None, response,
                     Some (simpleError
                       ("API returned unexpected status code " +:+
                        Itoa (StatusCode r))))
          else mret (Some result, response, err)
      end
  end.

End ResultService.

(** What a caller may rely on in a returned triple: the result is non-nil
    exactly when the error is nil, and then the response has status 200. *)
Definition result_matches_error
    (out : Outcome (option Result * option Response * option error)) : Prop :=
  match out with
  | Returned (result, response, err) =>
      (is_Some result <-> err = None)
      /\ (err = None -> exists r, response = Some r /\ StatusCode r = 200)
  | Panicked => True
  end.

(** ** A stub server

    A client for the examples below, in the manner of the [httptest] stubs
    of the test files: the network state is the list of replies the stub
    still has to give, one per dispatched request. *)

Record Reply : Type := {
  reply_response : option Response;
  reply_plans : PlanResponse;
  reply_plan : Plan;
  reply_error : option error
}.

(** A request with no query and no header. *)
Definition bare_request (method path : string) : Request :=
  {| Method := method;
     Request_URL := {| Path := path; RawQuery := ∅ |};
     Header := ∅ |}.

Definition stub_NewRequest (method urlStr : string) (body : option string)
    : option Request * option error :=
  (Some (bare_request method ("/rest/api/latest/" +:+ urlStr)), None).

Definition stub_RawRequest (method urlStr : string) (body : option string)
    : option Request * option error :=
  (Some (bare_request method urlStr), None).

Definition stub_decoded (d : dest) (v : dest_ty d) (r : Reply) : dest_ty d :=
  match d return dest_ty d -> dest_ty d with
  | into_nil => fun v => v
  | into_PlanResponse => fun _ => reply_plans r
  | into_Plan => fun _ => reply_plan r
  end v.

Definition stub_Do (d : dest) (request : option Request) (v : dest_ty d)
    (w : list Reply) : (option Response * dest_ty d * option error) * list Reply :=
  match w with
  | [] => ((None, v, Some (clientError "connection refused")), [])
  | r :: w' => ((reply_response r, stub_decoded d v r, reply_error r), w')
  end.

Definition stub_RawDo (request : option Request) (w : list Reply)
    : (option Response * option error) * list Reply :=
  match w with
  | [] => ((None, Some (clientError "connection refused")), [])
  | r :: w' => ((reply_response r, reply_error r), w')
  end.

Definition stub : Client (list Reply) :=
  {| BaseUrl := "http://bamboo.example";
     NewRequest := stub_NewRequest;
     Do := stub_Do;
     RawRequest := stub_RawRequest;
     RawDo := stub_RawDo |}.

(** A fresh run against the stub: nothing built, nothing sent. *)
Definition fresh (replies : list Reply) : Net (list Reply) :=
  {| server := replies; built := []; sent := [] |}.

Definition response_of (code : Z) (status body : string) : Response :=
  {| StatusCode := code; Status := status; Body := (body, None) |}.

(** The reply of the [unauthorizedStub] of the tests. *)
Definition unauthorized : Reply :=
  {| reply_response := Some (response_of 401 "401 Unauthorized" "");
     reply_plans := PlanResponse_zero;
     reply_plan := Plan_zero;
     reply_error := None |}.

(** A 200 reply carrying a plan envelope of the given size and items. *)
Definition plans_reply (size : Z) (items : list (option Plan)) : Reply :=
  {| reply_response := Some (response_of 200 "200 OK" "");
     reply_plans :=
       {| PlanResponse_ResourceMetadata := None;
          PlanResponse_Plans :=
            Some {| Plans_CollectionMetadata :=
                      Some {| Size := size; MaxResult := Z.of_nat (length items);
                              StartIndex := 0 |};
                    PlanList := items |} |};
     reply_plan := Plan_zero;
     reply_error := None |}.

Definition plan_named (key shortName : string) : Plan :=
  {| ShortName := shortName; ShortKey := ""; Plan_Type := "chain";
     Enabled := true; Plan_Link := None; Plan_Key := key; Name := shortName;
     Plan_PlanKey := Some {| PlanKey_Key := key |};
     Plan_VariableContext := None |}.

Definition variable (key value : string) : PlanVariable :=
  {| Key := key; Value := value; VariableType := "PLAN"; IsPassword := false |}.

(** A reply to [GetVars]: a plan with the given variable context. *)
Definition vars_reply (code : Z) (vc : option VariableContext) : Reply :=
  {| reply_response := Some (response_of code "" "");
     reply_plans := PlanResponse_zero;
     reply_plan :=
       {| ShortName := "Build"; ShortKey := "B"; Plan_Type := "chain";
          Enabled := true; Plan_Link := None; Plan_Key := "PRJ-B";
          Name := "Project - Build"; Plan_PlanKey := None;
          Plan_VariableContext := vc |};
     reply_error := None |}.

(** A client whose base URL is unset: no request can be built. *)
Definition unset_NewRequest (method urlStr : string) (body : option string)
    : option Request * option error :=
  (None, Some (clientError "base URL is not set")).

Definition unset : Client (list Reply) :=
  {| BaseUrl := "";
     NewRequest := unset_NewRequest;
     Do := stub_Do;
     RawRequest := unset_NewRequest;
     RawDo := stub_RawDo |}.

(** The stub for the result sub-client: a reply carries what the two
    result destinations decode to. *)
Record ResultReply : Type := {
  rr_response : option Response;
  rr_result : Result;
  rr_results : ResultsResponse;
  rr_error : option error
}.

Definition result_stub_Do (d : dest) (request : option Request) (v : dest_ty d)
    (w : list ResultReply)
    : (option Response * dest_ty d * option error) * list ResultReply :=
  match w with
  | [] => ((None, v, Some (clientError "connection refused")), [])
  | r :: w' => ((rr_response r, v, rr_error r), w')
  end.

Definition result_stub_RawDo (request : option Request) (w : list ResultReply)
    : (option Response * option error) * list ResultReply :=
  match w with
  | [] => ((None, Some (clientError "connection refused")), [])
  | r :: w' => ((rr_response r, rr_error r), w')
  end.

Definition result_stub_decoded (d : result_dest) (r : ResultReply)
    : result_dest_ty d :=
  match d with
  | into_Result => rr_result r
  | into_ResultsResponse => rr_results r
  end.

Definition result_stub_DoResult (d : result_dest) (request : option Request)
    (v : result_dest_ty d) (w : list ResultReply)
    : (option Response * result_dest_ty d * option error) * list ResultReply :=
  match w with
  | [] => ((None, v, Some (clientError "connection refused")), [])
  | r :: w' => ((rr_response r, result_stub_decoded d r, rr_error r), w')
  end.

Definition result_stub : ResultClient (list ResultReply) :=
  {| plain :=
       {| BaseUrl := "http://bamboo.example";
          NewRequest := stub_NewRequest;
          Do := result_stub_Do;
          RawRequest := stub_RawRequest;
          RawDo := result_stub_RawDo |};
     DoResult := result_stub_DoResult;
     numberedResultURL := fun key => "result/" +:+ key;
     listResultsURL := fun key => "result/" +:+ key |}.

(** Build 7 of PRJ-A, finished and successful. *)
Definition build_7 : Result :=
  {| Result_ChangeSet :=
       {| ChangeSet_Set :=
            [{| Change_Author := "ada"; Change_ChangeSetID := "c0ffee" |}] |};
     Result_ID := 4711; Result_PlanName := "Alpha";
     Result_ProjectName := "Project"; Result_BuildResultKey := "PRJ-A-7";
     Result_LifeCycleState := "Finished";
     Result_BuildStartedTime := ""; Result_BuildCompletedTime := "";
     Result_BuildDurationInSeconds := 12; Result_VcsRevisionKey := "c0ffee";
     Result_BuildTestSummary := ""; Result_SuccessfulTestCount := 3;
     Result_FailedTestCount := 0; Result_QuarantinedTestCount := 0;
     Result_SkippedTestCount := 0; Result_Finished := true;
     Result_Successful := true; Result_BuildReason := "";
     Result_ReasonSummary := ""; Result_Key := "PRJ-A-7";
     Result_State := "Successful"; Result_BuildState := "Successful";
     Result_Number := 7; Result_BuildNumber := 7;
     Result_Stages :=
       {| Stages_CollectionMetadata := CollectionMetadata_zero;
          Stages_Stage := [] |};
     Result_LogFiles := [];
     Result_Artifacts :=
       {| Artifacts_CollectionMetadata := CollectionMetadata_zero;
          Artifacts_Artifact := [] |};
     Result_Master := Plan_zero;
     Result_Plan := plan_named "PRJ-A" "Alpha";
     Result_TestResults := TestResults_zero |}.

(** A 200 reply with one page holding [build_7], of 40 results in all. *)
Definition one_page : ResultReply :=
  {| rr_response := Some (response_of 200 "200 OK" "");
     rr_result := build_7;
     rr_results :=
       {| ResultsResponse_ResourceMetadata := None;
          ResultsResponse_Results :=
            Some {| Results_CollectionMetadata :=
                      {| Size := 40; MaxResult := 25; StartIndex := 0 |};
                    Results_Result := [build_7] |} |};
     rr_error := None |}.

Definition result_fresh (replies : list ResultReply) : Net (list ResultReply) :=
  {| server := replies; built := []; sent := [] |}.

(** Scenarios against the stub. *)

Definition ok : Response := response_of 200 "200 OK" "".

Definition plan_json : Request :=
  bare_request MethodGet "/rest/api/latest/plan.json".

Definition two_plans : list Plan :=
  [plan_named "PRJ-A" "Alpha"; plan_named "PRJ-B" "Beta"].

(** The probe is answered with one plan of two, the fetch with both. *)
Definition listing : Net (list Reply) :=
  fresh [plans_reply 2 [Some (plan_named "PRJ-A" "Alpha")];
         plans_reply 2 (map Some two_plans)].

Definition listed : Net (list Reply) :=
  {| server := [];
     built := [(MethodGet, "plan.json"); (MethodGet, "plan.json")];
     sent := [Some (probe plan_json); Some (fetch 2 plan_json)] |}.

(** The server answers with the plan array [[null]]. *)
Definition nil_entry : Net (list Reply) :=
  fresh [plans_reply 1 [None]; plans_reply 1 [None]].

Definition nil_entry_listed : Net (list Reply) :=
  {| server := [];
     built := [(MethodGet, "plan.json"); (MethodGet, "plan.json")];
     sent := [Some (probe plan_json); Some (fetch 1 plan_json)] |}.

Definition server_error : Reply :=
  {| reply_response := Some (response_of 500 "500 Internal Server Error" "");
     reply_plans := PlanResponse_zero;
     reply_plan := Plan_zero;
     reply_error := None |}.

(** A 200 reply whose body stream breaks after three bytes. *)
Definition broken_body : Reply :=
  {| reply_response :=
       Some {| StatusCode := 200; Status := "200 OK";
               Body := ("par", Some (clientError "unexpected EOF")) |};
     reply_plans := PlanResponse_zero;
     reply_plan := Plan_zero;
     reply_error := None |}.

(** A second entry for the key [k], of another type and secret. *)
Definition secret_k : PlanVariable :=
  {| Key := "k"; Value := "new"; VariableType := "GLOBAL"; IsPassword := true |}.

(** A variable context cut at 25 of 30 variables (one is spelled out). *)
Definition truncated : VariableContext :=
  {| VariableContext_Size := 30;
     VariableContext_MaxResults := 25;
     VariableContext_StartIndex := 0;
     VariableContext_Variable := [variable "a" "1"] |}.

(** * Properties *)

(** ** The variable list helpers *)

Lemma GetVarValue_empty (vl : VariableList) (name : string) :
  GetVarValue vl name = "".
Proof.
  induction vl as [|v vl IH]; simpl; [reflexivity|].
  destruct (String.eqb (Key v) name); [reflexivity|exact IH].
Qed.

(** C1. The silent-default lookup does not return the value of a present
    entry: on the one-entry list [a = 1] and the name [a], [GetVarValue]
    returns the empty string, where the strict lookup [GetVarValueE]
    returns [1]. *)
Theorem GetVarValue_present_returns_empty :
  GetVarValue [variable "a" "1"] "a" = ""
  /\ GetVarValueE [variable "a" "1"] "a" = ("1", None).
Proof. split; reflexivity. Qed.

Lemma ToMap_loop_absent (vl : VariableList) (m : gmap string string) (k : string) :
  Forall (fun c => Key c ≠ k) vl -> ToMap_loop m vl !! k = m !! k.
Proof.
  revert m. induction vl as [|v vl IH]; intros m Hk; simpl; [reflexivity|].
  inversion Hk as [|? ? Hv Hvl]; subst.
  rewrite IH by assumption. apply lookup_insert_ne. exact Hv.
Qed.

Lemma ToMap_loop_last (pre post : VariableList) (b : PlanVariable)
    (m : gmap string string) :
  Forall (fun c => Key c ≠ Key b) post ->
  ToMap_loop m (pre ++ b :: post) !! Key b = Some (Value b).
Proof.
  intros Hpost. revert m. induction pre as [|v pre IH]; intros m; simpl.
  - rewrite ToMap_loop_absent by assumption. apply lookup_insert_eq.
  - apply IH.
Qed.

Lemma ToMap_loop_key_value (vl vl' : VariableList) (m : gmap string string) :
  map key_value vl' = map key_value vl -> ToMap_loop m vl' = ToMap_loop m vl.
Proof.
  revert vl' m. induction vl as [|v vl IH]; intros [|v' vl'] m Heq;
    simpl in *; try discriminate; [reflexivity|].
  unfold key_value at 1 3 in Heq. injection Heq as Hk Hv Hrest.
  rewrite Hk, Hv. apply IH. exact Hrest.
Qed.

(** C8. [ToMap] is a last-key-wins collapse, for every variable list:
    under the key of any entry that is the last entry of the list with
    that key, the map holds the value of that entry (so of two entries
    that share a key the later one wins); under a key that no entry
    carries the map holds nothing; and the map depends on the keys and
    values of the entries only, so the declared types and secrecy flags
    are discarded. *)
Theorem ToMap_last_key_wins (vl : VariableList) :
  (forall (pre post : VariableList) (b : PlanVariable),
     vl = pre ++ b :: post ->
     Forall (fun c => Key c ≠ Key b) post ->
     ToMap vl !! Key b = Some (Value b))
  /\ (forall k : string,
        Forall (fun c => Key c ≠ k) vl -> ToMap vl !! k = None)
  /\ (forall vl' : VariableList,
        map key_value vl' = map key_value vl -> ToMap vl' = ToMap vl).
Proof.
  split; [|split].
  - intros pre post b -> Hpost. unfold ToMap.
    apply ToMap_loop_last. exact Hpost.
  - intros k Habsent. unfold ToMap.
    rewrite ToMap_loop_absent by exact Habsent. apply lookup_empty.
  - intros vl' Heq. unfold ToMap. apply ToMap_loop_key_value. exact Heq.
Qed.

Lemma ToMap_last_key_wins_witness :
  ToMap [variable "j" "1"; variable "k" "old"; variable "x" "y"; secret_k;
         variable "z" "w"] !! "k" = Some "new"
  /\ ToMap [variable "j" "1"; variable "k" "old"; variable "x" "y"; secret_k;
            variable "z" "w"] !! "j" = Some "1"
  /\ ToMap [variable "j" "1"; variable "k" "old"; variable "x" "y"; secret_k;
            variable "z" "w"] !! "q" = None
  /\ ToMap [variable "j" "1"; variable "k" "old"; variable "x" "y";
            variable "k" "new"; variable "z" "w"]
     = ToMap [variable "j" "1"; variable "k" "old"; variable "x" "y"; secret_k;
              variable "z" "w"].
Proof.
  destruct (ToMap_last_key_wins
              [variable "j" "1"; variable "k" "old"; variable "x" "y"; secret_k;
               variable "z" "w"]) as (Hlast & Habsent & Hsame).
  split.
  { apply (Hlast [variable "j" "1"; variable "k" "old"; variable "x" "y"]
             [variable "z" "w"] secret_k eq_refl).
    repeat constructor. discriminate. }
  split.
  { apply (Hlast [] [variable "k" "old"; variable "x" "y"; secret_k;
                     variable "z" "w"] (variable "j" "1") eq_refl).
    repeat constructor; discriminate. }
  split.
  { apply Habsent. repeat constructor; discriminate. }
  apply Hsame. reflexivity.
Defined.

(** ** The sub-clients, over an arbitrary client *)

Ltac go_unfold :=
  unfold client_NewRequest, client_Do, client_RawRequest, client_RawDo,
    deref, panic, mbind, Go_bind, bind, mret, Go_ret, ret in *.

Section SubClientProperties.

Context {W : Type} (client : Client W).

(** C3. When the count probe ends in a transport error, or in a response
    whose status code is not 200, [List] returns an empty plan list, the
    response of the probe and the error of the probe; the probe is the
    only request built and the only request dispatched. *)
Theorem List_probe_failure (s : Net W) (req0 : Request)
    (resp : option Response) (pr : PlanResponse) (err : option error) (w' : W) :
  NewRequest client MethodGet "plan.json" None = (Some req0, None) ->
  Do client into_PlanResponse (Some (probe req0)) PlanResponse_zero (server s)
    = ((resp, pr, err), w') ->
  is_Some err \/ (exists r, resp = Some r /\ StatusCode r ≠ 200) ->
  exists (e : error) (s' : Net W),
    GetNumber client s = (Returned (0, resp, Some e), s')
    /\ List client s = (Returned ([], resp, Some e), s')
    /\ sent s' = sent s ++ [Some (probe req0)]
    /\ built s' = built s ++ [(MethodGet, "plan.json")]
    /\ (err = Some e
        \/ err = None /\ exists r, resp = Some r
             /\ e = simpleError
                      ("Getting the number of plans returned " +:+ Status r)).
Proof.
  intros Hnew Hdo Hfail.
  assert (Hprobe : exists e,
    GetNumber client s
      = (Returned (0, resp, Some e),
         after_dispatch s MethodGet "plan.json" (Some (probe req0)) w')
    /\ (err = Some e
        \/ err = None /\ exists r, resp = Some r
             /\ e = simpleError
                      ("Getting the number of plans returned " +:+ Status r))).
  { unfold GetNumber. go_unfold. rewrite Hnew. cbn. fold (probe req0).
    rewrite Hdo. cbn. destruct err as [e|].
    - exists e. split; [reflexivity|]. left. reflexivity.
    - destruct Hfail as [[e He]|[r [-> Hcode]]]; [discriminate|].
      cbn. apply Z.eqb_neq in Hcode. rewrite Hcode. cbn.
      eexists. split; [reflexivity|]. right. split; [reflexivity|].
      exists r. split; reflexivity. }
  destruct Hprobe as [e [Hnum He]].
  exists e, (after_dispatch s MethodGet "plan.json" (Some (probe req0)) w').
  split; [exact Hnum|]. split.
  - unfold List. unfold mbind at 1, Go_bind at 1, bind at 1.
    rewrite Hnum. reflexivity.
  - split; [reflexivity|]. split; [reflexivity|]. exact He.
Qed.

(** C5. [CreateBranch] with an empty plan key or an empty branch name
    returns [false], no response and the validation error, and leaves the
    state as it was: no request is built and none is dispatched. *)
Theorem CreateBranch_empty_argument (planKey branchName : string)
    (options : option PlanCreateBranchOptions) (s : Net W) :
  planKey = "" \/ branchName = "" ->
  CreateBranch client planKey branchName options s
    = (Returned (false, None,
         Some (simpleError "Project key and/or branch name cannot be empty")),
       s).
Proof.
  intros Hempty. unfold CreateBranch.
  assert (Hguard : emptyStrings [planKey; branchName] = true).
  { unfold emptyStrings. simpl.
    destruct Hempty as [-> | ->]; simpl; [reflexivity|].
    rewrite orb_true_r. reflexivity. }
  rewrite Hguard. reflexivity.
Qed.

(** C6. Whenever the dispatch of the DELETE request reports no error,
    [Disable] returns the response with a nil error, whatever the response
    and its status code are. *)
Theorem Disable_trusts_transport (planKey : string) (s : Net W)
    (request : option Request) (response : option Response) (w' : W) :
  NewRequest client MethodDelete ("plan/" +:+ planKey +:+ "/enable") None
    = (request, None) ->
  Do client into_nil request tt (server s) = ((response, tt, None), w') ->
  Disable client planKey s
    = (Returned (response, None),
       after_dispatch s MethodDelete ("plan/" +:+ planKey +:+ "/enable")
         request w').
Proof.
  intros Hnew Hdo. unfold Disable. go_unfold. rewrite Hnew. cbn.
  rewrite Hdo. reflexivity.
Qed.

(** C4. After a dispatch that reports no error and decodes a plan that
    carries a variable context, [GetVars] returns the variable sequence of
    that context in every case, and returns a non-nil error exactly when
    the context's max-results differs from its size. *)
Theorem GetVars_partial_result (planKey : string) (s : Net W) (req0 : Request)
    (response : option Response) (plan : Plan) (vc : VariableContext) (w' : W) :
  NewRequest client MethodGet ("plan/" +:+ planKey) None = (Some req0, None) ->
  Do client into_Plan (Some (expand_request req0)) Plan_zero (server s)
    = ((response, plan, None), w') ->
  Plan_VariableContext plan = Some vc ->
  exists err : option error,
    GetVars client planKey s
      = (Returned (VariableContext_Variable vc, response, err),
         after_dispatch s MethodGet ("plan/" +:+ planKey)
           (Some (expand_request req0)) w')
    /\ (is_Some err <-> VariableContext_MaxResults vc ≠ VariableContext_Size vc).
Proof.
  intros Hnew Hdo Hvc. unfold GetVars. go_unfold. rewrite Hnew. cbn.
  fold (expand_request req0). rewrite Hdo. cbn. rewrite Hvc. cbn.
  destruct (Z.eqb_spec (VariableContext_MaxResults vc) (VariableContext_Size vc))
    as [Heq|Hne]; cbn.
  - exists None. split; [reflexivity|]. split.
    + intros [e He]. discriminate.
    + intros Hne. contradiction.
  - eexists (Some _). split; [reflexivity|]. split.
    + intros _. exact Hne.
    + intros _. eexists. reflexivity.
Qed.

(** C9. [GetVars] reads the variable context without checking the status
    code or the pointer: after a dispatch that reports no error, whatever
    the response is, a decoded plan whose variable context is nil makes
    [GetVars] panic; it returns neither a value nor an error. *)
Theorem GetVars_nil_context_panics (planKey : string) (s : Net W)
    (req0 : Request) (response : option Response) (plan : Plan) (w' : W) :
  NewRequest client MethodGet ("plan/" +:+ planKey) None = (Some req0, None) ->
  Do client into_Plan (Some (expand_request req0)) Plan_zero (server s)
    = ((response, plan, None), w') ->
  Plan_VariableContext plan = None ->
  GetVars client planKey s
    = (Panicked,
       after_dispatch s MethodGet ("plan/" +:+ planKey)
         (Some (expand_request req0)) w').
Proof.
  intros Hnew Hdo Hvc. unfold GetVars. go_unfold. rewrite Hnew. cbn.
  fold (expand_request req0). rewrite Hdo. cbn. rewrite Hvc. reflexivity.
Qed.

Lemma Values_Get_Add_fresh (key value : string) (v : gmap string (list string)) :
  v !! key = None -> Values_Get key (Values_Add key value v) = value.
Proof.
  intros Hfresh. unfold Values_Get, Values_Add.
  rewrite lookup_insert_eq, Hfresh. reflexivity.
Qed.

(** A successful count probe, taken apart. *)
Lemma GetNumber_success (s s1 : Net W) (N : Z) (resp : option Response) :
  GetNumber client s = (Returned (N, resp, None), s1) ->
  exists (req0 : Request) (r : Response) (pr : PlanResponse) (pl : Plans)
         (m : CollectionMetadata) (w1 : W),
    NewRequest client MethodGet "plan.json" None = (Some req0, None)
    /\ Do client into_PlanResponse (Some (probe req0)) PlanResponse_zero (server s)
         = ((Some r, pr, None), w1)
    /\ resp = Some r /\ StatusCode r = 200
    /\ PlanResponse_Plans pr = Some pl
    /\ Plans_CollectionMetadata pl = Some m
    /\ N = Size m
    /\ s1 = after_dispatch s MethodGet "plan.json" (Some (probe req0)) w1.
Proof.
  unfold GetNumber. go_unfold.
  destruct (NewRequest client MethodGet "plan.json" None) as [request [e|]] eqn:Hnew;
    cbn; [discriminate|].
  destruct request as [req0|]; cbn; [|discriminate]. fold (probe req0).
  destruct (Do client into_PlanResponse (Some (probe req0)) PlanResponse_zero
              (server s)) as [[[response pr] [e|]] w1] eqn:Hdo;
    cbn; [discriminate|].
  destruct response as [r|]; cbn; [|discriminate].
  destruct (Z.eqb_spec (StatusCode r) 200) as [Hcode|Hcode]; cbn; [|discriminate].
  destruct (PlanResponse_Plans pr) as [pl|] eqn:Hpl; cbn; [|discriminate].
  destruct (Plans_CollectionMetadata pl) as [m|] eqn:Hm; cbn; [|discriminate].
  intros Heq. injection Heq as <- <- <-.
  exists req0, r, pr, pl, m, w1. repeat split; assumption || reflexivity.
Qed.

(** A successful [List], taken apart: the probe succeeded with a count
    [N], and the request built afterwards, with [max-results] set to [N],
    was answered with status 200 and a plan envelope. *)
Lemma List_success (s s' : Net W) (plans : list (option Plan))
    (response : option Response) :
  List client s = (Returned (plans, response, None), s') ->
  exists (N : Z) (resp1 : option Response) (s1 : Net W) (req0 : Request)
         (r : Response) (pr : PlanResponse) (pl : Plans) (w2 : W),
    GetNumber client s = (Returned (N, resp1, None), s1)
    /\ NewRequest client MethodGet "plan.json" None = (Some req0, None)
    /\ s1 = after_dispatch s MethodGet "plan.json" (Some (probe req0)) (server s1)
    /\ Do client into_PlanResponse (Some (fetch N req0)) PlanResponse_zero (server s1)
         = ((Some r, pr, None), w2)
    /\ response = Some r /\ StatusCode r = 200
    /\ PlanResponse_Plans pr = Some pl
    /\ plans = PlanList pl
    /\ s' = after_dispatch s1 MethodGet "plan.json" (Some (fetch N req0)) w2.
Proof.
  unfold List. unfold mbind at 1, Go_bind at 1, bind at 1.
  destruct (GetNumber client s) as [[[[N resp1] err]|] s1] eqn:Hnum;
    [|discriminate].
  destruct err as [e|]; [discriminate|].
  destruct (GetNumber_success _ _ _ _ Hnum)
    as (req0 & r1 & pr1 & pl1 & m & w1 & Hnew & _ & _ & _ & _ & _ & _ & Hs1).
  go_unfold. rewrite Hnew. cbn. fold (fetch N req0).
  destruct (Do client into_PlanResponse (Some (fetch N req0)) PlanResponse_zero
              (server s1)) as [[[resp2 pr] [e|]] w2] eqn:Hdo;
    cbn; [discriminate|].
  destruct resp2 as [r|]; cbn; [|discriminate].
  destruct (Z.eqb_spec (StatusCode r) 200) as [Hcode|Hcode]; cbn; [|discriminate].
  destruct (PlanResponse_Plans pr) as [pl|] eqn:Hpl; cbn; [|discriminate].
  intros Heq. injection Heq as <- <- <-.
  exists N, resp1, s1, req0, r, pr, pl, w2.
  repeat split; try assumption; try reflexivity.
  rewrite Hs1 at 1. rewrite Hs1. reflexivity.
Qed.

(** C2. A successful [List] dispatches exactly two requests, both of them
    the request built for [plan.json] with one query parameter added: the
    count probe, whose [max-results] query value is [1], and then the
    fetch, whose [max-results] query value is the decimal rendering of the
    count [N] that the probe returned. Method, path and headers of both
    are those of the built request. The plan list returned is the item
    sequence decoded from the answer to the second request. The request
    builder is assumed to set no [max-results] of its own. *)
Theorem List_two_requests (s s' : Net W) (plans : list (option Plan))
    (response : option Response) :
  (forall (req0 : Request) (e : option error),
     NewRequest client MethodGet "plan.json" None = (Some req0, e) ->
     RawQuery (Request_URL req0) !! "max-results" = None) ->
  List client s = (Returned (plans, response, None), s') ->
  exists (N : Z) (resp1 : option Response) (s1 : Net W) (req0 : Request)
         (pr : PlanResponse) (pl : Plans),
    NewRequest client MethodGet "plan.json" None = (Some req0, None)
    /\ GetNumber client s = (Returned (N, resp1, None), s1)
    /\ sent s1 = sent s ++ [Some (probe req0)]
    /\ sent s' = sent s ++ [Some (probe req0); Some (fetch N req0)]
    /\ built s' = built s ++ [(MethodGet, "plan.json"); (MethodGet, "plan.json")]
    /\ Values_Get "max-results" (RawQuery (Request_URL (probe req0))) = "1"
    /\ Values_Get "max-results" (RawQuery (Request_URL (fetch N req0))) = Itoa N
    /\ Forall (fun r =>
                 Method r = Method req0
                 /\ Path (Request_URL r) = Path (Request_URL req0)
                 /\ Header r = Header req0
                 /\ forall k, k ≠ "max-results" ->
                      RawQuery (Request_URL r) !! k
                        = RawQuery (Request_URL req0) !! k)
         [probe req0; fetch N req0]
    /\ Do client into_PlanResponse (Some (fetch N req0)) PlanResponse_zero
         (server s1) = ((response, pr, None), server s')
    /\ PlanResponse_Plans pr = Some pl
    /\ plans = PlanList pl.
Proof.
  intros Hfresh Hlist.
  destruct (List_success _ _ _ _ Hlist)
    as (N & resp1 & s1 & req0 & r & pr & pl & w2
        & Hnum & Hnew & Hs1 & Hdo & -> & _ & Hpl & -> & ->).
  specialize (Hfresh req0 None Hnew).
  exists N, resp1, s1, req0, pr, pl.
  split; [exact Hnew|].
  split; [exact Hnum|].
  split; [rewrite Hs1; reflexivity|].
  split; [rewrite Hs1; cbn; rewrite <- app_assoc; reflexivity|].
  split; [rewrite Hs1; cbn; rewrite <- app_assoc; reflexivity|].
  split; [apply Values_Get_Add_fresh; exact Hfresh|].
  split; [apply Values_Get_Add_fresh; exact Hfresh|].
  split.
  { repeat constructor; cbn; intros k Hk; unfold Values_Add;
      apply lookup_insert_ne; congruence. }
  split; [exact Hdo|]. split; [exact Hpl|reflexivity].
Qed.

Lemma ListKeys_loop_filled (ps : list Plan) (done rest : list string) (s : Net W) :
  length rest = length ps ->
  ListKeys_loop (length done) (map Some ps) (done ++ rest) s
    = (Returned (done ++ map Plan_Key ps), s).
Proof.
  revert done rest. induction ps as [|p ps IH]; intros done rest Hlen.
  - destruct rest; [|discriminate]. reflexivity.
  - destruct rest as [|r rest]; [discriminate|].
    injection Hlen as Hlen. cbn [map ListKeys_loop]. go_unfold. cbv beta iota.
    rewrite insert_app_r_alt, Nat.sub_diag by reflexivity. cbn [insert list_insert].
    replace (done ++ Plan_Key p :: rest) with ((done ++ [Plan_Key p]) ++ rest)
      by (rewrite <- app_assoc; reflexivity).
    replace (S (length done)) with (length (done ++ [Plan_Key p]))
      by (rewrite length_app; cbn; lia).
    rewrite IH by exact Hlen. rewrite <- app_assoc. reflexivity.
Qed.

Lemma ListNames_loop_filled (ps : list Plan) (done rest : list string) (s : Net W) :
  length rest = length ps ->
  ListNames_loop (length done) (map Some ps) (done ++ rest) s
    = (Returned (done ++ map ShortName ps), s).
Proof.
  revert done rest. induction ps as [|p ps IH]; intros done rest Hlen.
  - destruct rest; [|discriminate]. reflexivity.
  - destruct rest as [|r rest]; [discriminate|].
    injection Hlen as Hlen. cbn [map ListNames_loop]. go_unfold. cbv beta iota.
    rewrite insert_app_r_alt, Nat.sub_diag by reflexivity. cbn [insert list_insert].
    replace (done ++ ShortName p :: rest) with ((done ++ [ShortName p]) ++ rest)
      by (rewrite <- app_assoc; reflexivity).
    replace (S (length done)) with (length (done ++ [ShortName p]))
      by (rewrite length_app; cbn; lia).
    rewrite IH by exact Hlen. rewrite <- app_assoc. reflexivity.
Qed.

Lemma NamesMap_loop_filled (ps : list Plan) (m : gmap string string) (s : Net W) :
  exists planMap : gmap string string,
    NamesMap_loop (map Some ps) m s = (Returned planMap, s)
    /\ forall k, planMap !! k
         = match last_name k ps with Some n => Some n | None => m !! k end.
Proof.
  revert m. induction ps as [|p ps IH]; intros m.
  - exists m. split; reflexivity.
  - destruct (IH (<[Plan_Key p := ShortName p]> m)) as [planMap [Hrun Hlook]].
    exists planMap. split.
    + cbn [map NamesMap_loop]. go_unfold. cbv beta iota. exact Hrun.
    + intros k. rewrite Hlook. unfold last_name. rewrite filter_cons.
      destruct (decide (Plan_Key p = k)) as [Hk|Hk].
      * rewrite last_cons.
        destruct (last (filter (fun p0 => Plan_Key p0 = k) ps)); cbn;
          [reflexivity|]. rewrite Hk. apply lookup_insert_eq.
      * destruct (last (filter (fun p0 => Plan_Key p0 = k) ps)); cbn;
          [reflexivity|]. apply lookup_insert_ne. exact Hk.
Qed.

(** C7, as the code has it. The three projections run [List] and nothing
    else on the network. When [List] returns an error they return an empty
    result with the response and the error of [List]. When [List] succeeds
    and no entry of its plan list is a nil pointer, they return the keys in
    order, the short names in order, and the map that sends a key to the
    short name of the last plan with that key. *)
Theorem projections_of_List (s s' : Net W) (plans : list (option Plan))
    (response : option Response) (err : option error) :
  List client s = (Returned (plans, response, err), s') ->
  match err with
  | Some e =>
      ListKeys client s = (Returned ([], response, Some e), s')
      /\ ListNames client s = (Returned ([], response, Some e), s')
      /\ NamesMap client s = (Returned (∅, response, Some e), s')
  | None =>
      forall ps : list Plan, plans = map Some ps ->
        ListKeys client s = (Returned (map Plan_Key ps, response, None), s')
        /\ ListNames client s = (Returned (map ShortName ps, response, None), s')
        /\ exists planMap : gmap string string,
             NamesMap client s = (Returned (planMap, response, None), s')
             /\ forall k, planMap !! k = last_name k ps
  end.
Proof.
  intros Hlist. destruct err as [e|].
  - unfold ListKeys, ListNames, NamesMap.
    unfold mbind, Go_bind, bind. rewrite Hlist. repeat split; reflexivity.
  - intros ps ->. split; [|split].
    + unfold ListKeys. unfold mbind at 1, Go_bind at 1, bind at 1.
      rewrite Hlist. go_unfold.
      rewrite (ListKeys_loop_filled ps [] (replicate (length (map Some ps)) ""));
        [reflexivity|].
      rewrite length_replicate, length_map. reflexivity.
    + unfold ListNames. unfold mbind at 1, Go_bind at 1, bind at 1.
      rewrite Hlist. go_unfold.
      rewrite (ListNames_loop_filled ps [] (replicate (length (map Some ps)) ""));
        [reflexivity|].
      rewrite length_replicate, length_map. reflexivity.
    + destruct (NamesMap_loop_filled ps ∅ s') as [planMap [Hrun Hlook]].
      exists planMap. split.
      * unfold NamesMap. unfold mbind at 1, Go_bind at 1, bind at 1.
        rewrite Hlist. go_unfold. rewrite Hrun. reflexivity.
      * intros k. rewrite Hlook. destruct (last_name k ps); [reflexivity|].
        apply lookup_empty.
Qed.


End SubClientProperties.

(** ** The statements at the stub server *)

Lemma List_two_requests_witness :
  List stub listing = (Returned (map Some two_plans, Some ok, None), listed)
  /\ exists (N : Z) (resp1 : option Response) (s1 : Net (list Reply))
            (req0 : Request) (pr : PlanResponse) (pl : Plans),
       NewRequest stub MethodGet "plan.json" None = (Some req0, None)
       /\ GetNumber stub listing = (Returned (N, resp1, None), s1)
       /\ sent s1 = sent listing ++ [Some (probe req0)]
       /\ sent listed = sent listing ++ [Some (probe req0); Some (fetch N req0)]
       /\ built listed
            = built listing ++ [(MethodGet, "plan.json"); (MethodGet, "plan.json")]
       /\ Values_Get "max-results" (RawQuery (Request_URL (probe req0))) = "1"
       /\ Values_Get "max-results" (RawQuery (Request_URL (fetch N req0)))
            = Itoa N
       /\ Forall (fun r =>
                    Method r = Method req0
                    /\ Path (Request_URL r) = Path (Request_URL req0)
                    /\ Header r = Header req0
                    /\ forall k, k ≠ "max-results" ->
                         RawQuery (Request_URL r) !! k
                           = RawQuery (Request_URL req0) !! k)
            [probe req0; fetch N req0]
       /\ Do stub into_PlanResponse (Some (fetch N req0)) PlanResponse_zero
            (server s1) = ((Some ok, pr, None), server listed)
       /\ PlanResponse_Plans pr = Some pl
       /\ map Some two_plans = PlanList pl.
Proof.
  split; [reflexivity|].
  apply (List_two_requests stub listing listed (map Some two_plans) (Some ok)).
  - intros req0 e Hbuilt. injection Hbuilt as <- _. reflexivity.
  - reflexivity.
Defined.

Lemma List_probe_failure_witness :
  exists s' : Net (list Reply),
    GetNumber stub (fresh [unauthorized])
      = (Returned (0, reply_response unauthorized,
           Some (simpleError
                   "Getting the number of plans returned 401 Unauthorized")),
         s')
    /\ List stub (fresh [unauthorized])
         = (Returned ([], reply_response unauthorized,
              Some (simpleError
                      "Getting the number of plans returned 401 Unauthorized")),
            s')
    /\ sent s' = [Some (probe plan_json)]
    /\ built s' = [(MethodGet, "plan.json")].
Proof.
  destruct (List_probe_failure stub (fresh [unauthorized]) plan_json
              (reply_response unauthorized) PlanResponse_zero None [])
    as (e & s' & Hnum & Hlist & Hsent & Hbuilt & He).
  - reflexivity.
  - reflexivity.
  - right. eexists. split; [reflexivity|]. cbn. lia.
  - destruct He as [He|[_ (r & Hr & He)]]; [discriminate|].
    injection Hr as <-. subst e. exists s'.
    split; [exact Hnum|]. split; [exact Hlist|].
    split; [exact Hsent|exact Hbuilt].
Defined.

Lemma GetVars_partial_result_witness :
  exists err : option error,
    GetVars stub "PRJ-B" (fresh [vars_reply 200 (Some truncated)])
      = (Returned ([variable "a" "1"],
                   reply_response (vars_reply 200 (Some truncated)), err),
         after_dispatch (fresh [vars_reply 200 (Some truncated)]) MethodGet
           "plan/PRJ-B"
           (Some (expand_request
                    (bare_request MethodGet "/rest/api/latest/plan/PRJ-B")))
           [])
    /\ (is_Some err <-> 25 ≠ 30).
Proof.
  apply (GetVars_partial_result stub "PRJ-B"
           (fresh [vars_reply 200 (Some truncated)])
           (bare_request MethodGet "/rest/api/latest/plan/PRJ-B")
           (reply_response (vars_reply 200 (Some truncated)))
           (reply_plan (vars_reply 200 (Some truncated))) truncated []);
    reflexivity.
Defined.

Lemma CreateBranch_empty_argument_witness :
  CreateBranch stub "PRJ-A" "" None (fresh [server_error])
    = (Returned (false, None,
         Some (simpleError "Project key and/or branch name cannot be empty")),
       fresh [server_error]).
Proof.
  apply (CreateBranch_empty_argument stub "PRJ-A" "" None (fresh [server_error])).
  right. reflexivity.
Defined.

Lemma Disable_trusts_transport_witness :
  Disable stub "PRJ-A" (fresh [server_error])
    = (Returned (reply_response server_error, None),
       after_dispatch (fresh [server_error]) MethodDelete "plan/PRJ-A/enable"
         (Some (bare_request MethodDelete "/rest/api/latest/plan/PRJ-A/enable"))
         []).
Proof.
  apply (Disable_trusts_transport stub "PRJ-A" (fresh [server_error])
           (Some (bare_request MethodDelete "/rest/api/latest/plan/PRJ-A/enable"))
           (reply_response server_error) []);
    reflexivity.
Defined.

Lemma GetVars_nil_context_panics_witness :
  GetVars stub "PRJ-B" (fresh [vars_reply 404 None])
    = (Panicked,
       after_dispatch (fresh [vars_reply 404 None]) MethodGet "plan/PRJ-B"
         (Some (expand_request
                  (bare_request MethodGet "/rest/api/latest/plan/PRJ-B")))
         []).
Proof.
  apply (GetVars_nil_context_panics stub "PRJ-B" (fresh [vars_reply 404 None])
           (bare_request MethodGet "/rest/api/latest/plan/PRJ-B")
           (reply_response (vars_reply 404 None))
           (reply_plan (vars_reply 404 None)) []);
    reflexivity.
Defined.

Lemma projections_of_List_witness :
  List stub listing = (Returned (map Some two_plans, Some ok, None), listed)
  /\ ListKeys stub listing = (Returned (["PRJ-A"; "PRJ-B"], Some ok, None), listed)
  /\ ListNames stub listing = (Returned (["Alpha"; "Beta"], Some ok, None), listed)
  /\ exists planMap : gmap string string,
       NamesMap stub listing = (Returned (planMap, Some ok, None), listed)
       /\ forall k, planMap !! k = last_name k two_plans.
Proof.
  split; [reflexivity|].
  apply (projections_of_List stub listing listed (map Some two_plans) (Some ok)
           None eq_refl two_plans eq_refl).
Defined.

(** C7, as the claim has it, fails: against a server that answers with the
    plan array [[null]], [List] succeeds, and each of the three projections
    panics on the nil entry instead of returning. *)
Lemma projections_panic_on_nil_entry :
  List stub nil_entry = (Returned ([None], Some ok, None), nil_entry_listed)
  /\ ListKeys stub nil_entry = (Panicked, nil_entry_listed)
  /\ ListNames stub nil_entry = (Panicked, nil_entry_listed)
  /\ NamesMap stub nil_entry = (Panicked, nil_entry_listed).
Proof. repeat split; reflexivity. Qed.


(** The one case in which [GetRaw] hands back a response with its error:
    status 200 and a body that cannot be read to the end. *)
Example GetRaw_body_read_failure :
  GetRaw stub "/foo" (fresh [broken_body])
    = (Returned ("", reply_response broken_body,
         Some (simpleError "Read body unexpected EOF")),
       after_dispatch (fresh [broken_body]) MethodGet "/foo"
         (Some (form_request (bare_request MethodGet "/foo"))) []).
Proof. reflexivity. Qed.

(** * Further properties of the code *)

(** ** The strict lookup and the map (plans.go, lines 237-263) *)

Lemma GetVarValueE_skip (pre vl : VariableList) (name : string) :
  Forall (fun c => Key c ≠ name) pre ->
  GetVarValueE (pre ++ vl) name = GetVarValueE vl name.
Proof.
  induction 1 as [|c pre Hc _ IH]; simpl; [reflexivity|].
  apply String.eqb_neq in Hc. rewrite Hc. exact IH.
Qed.

(** X1. The strict lookup is first-key-wins: the value returned for a key
    is the value of the first entry that carries it, with no error. *)
Theorem GetVarValueE_first_key_wins (pre post : VariableList) (v : PlanVariable) :
  Forall (fun c => Key c ≠ Key v) pre ->
  GetVarValueE (pre ++ v :: post) (Key v) = (Value v, None).
Proof.
  intros Hpre. rewrite GetVarValueE_skip by exact Hpre.
  simpl. rewrite String.eqb_refl. reflexivity.
Qed.

Lemma GetVarValueE_first_key_wins_witness :
  GetVarValueE [variable "j" "1"; variable "k" "old"; secret_k] "k"
    = ("old", None).
Proof.
  apply (GetVarValueE_first_key_wins [variable "j" "1"] [secret_k]
           (variable "k" "old")).
  repeat constructor. discriminate.
Defined.

(** X2. The strict lookup reports [not found] exactly when no entry of the
    list carries the name; an entry whose value is the empty string is
    found, with no error. *)
Theorem GetVarValueE_not_found_iff (vl : VariableList) (name : string) :
  GetVarValueE vl name = ("", Some (fmtError "not found"))
  <-> Forall (fun v => Key v ≠ name) vl.
Proof.
  induction vl as [|v vl IH]; simpl.
  - split; [constructor|reflexivity].
  - destruct (String.eqb_spec (Key v) name) as [Heq|Hne].
    + split; [discriminate|]. intros Hall.
      inversion Hall as [|? ? Hv _]; subst. contradiction.
    + rewrite IH. split.
      * intros Hall. constructor; assumption.
      * intros Hall. inversion Hall; assumption.
Qed.

Lemma ToMap_loop_dom (vl : VariableList) (m : gmap string string) :
  dom (ToMap_loop m vl) = dom m ∪ list_to_set (map Key vl).
Proof.
  revert m. induction vl as [|v vl IH]; intros m; simpl.
  - set_solver.
  - rewrite IH, dom_insert_L. set_solver.
Qed.

(** X3. The keys of the map are exactly the keys that occur in the list:
    [ToMap] neither drops a key nor invents one. *)
Theorem ToMap_dom (vl : VariableList) :
  dom (ToMap vl) = list_to_set (map Key vl).
Proof.
  unfold ToMap. rewrite ToMap_loop_dom, dom_empty_L. set_solver.
Qed.

Lemma ToMap_loop_first_unique (vl : VariableList) (m : gmap string string)
    (k : string) :
  NoDup (map Key vl) ->
  ToMap_loop m vl !! k
    = match GetVarValueE vl k with
      | (v, None) => Some v
      | (_, Some _) => m !! k
      end.
Proof.
  revert m. induction vl as [|c vl IH]; intros m Hnd; simpl; [reflexivity|].
  inversion Hnd as [|? ? Hfresh Hnd']; subst.
  destruct (String.eqb_spec (Key c) k) as [Heq|Hne].
  - rewrite ToMap_loop_absent.
    + rewrite Heq. apply lookup_insert_eq.
    + apply Forall_forall. intros c' Hc' Hk. apply Hfresh.
      rewrite Heq, <- Hk. apply list_elem_of_fmap. exists c'. split; [reflexivity|].
      exact Hc'.
  - rewrite IH by exact Hnd'.
    destruct (GetVarValueE vl k) as [v [e|]]; [|reflexivity].
    apply lookup_insert_ne. exact Hne.
Qed.

(** X4. On a list whose keys are pairwise distinct the map and the strict
    lookup agree: the map holds [v] under [k] exactly when the strict
    lookup of [k] returns [v] with no error. *)
Theorem ToMap_agrees_with_GetVarValueE (vl : VariableList) (k v : string) :
  NoDup (map Key vl) ->
  ToMap vl !! k = Some v <-> GetVarValueE vl k = (v, None).
Proof.
  intros Hnd. unfold ToMap. rewrite ToMap_loop_first_unique by exact Hnd.
  destruct (GetVarValueE vl k) as [v' [e|]].
  - rewrite lookup_empty. split; discriminate.
  - split; intros Heq; injection Heq as ->; reflexivity.
Qed.

Lemma ToMap_agrees_with_GetVarValueE_witness :
  ToMap [variable "j" "1"; secret_k] !! "k" = Some "new"
  <-> GetVarValueE [variable "j" "1"; secret_k] "k" = ("new", None).
Proof.
  apply (ToMap_agrees_with_GetVarValueE [variable "j" "1"; secret_k] "k" "new").
  repeat constructor; set_solver.
Defined.

(** X5. On a key that two entries share the two readings differ: the
    strict lookup returns the value of the first entry with the key, the
    map holds the value of the last one. *)
Theorem first_and_last_of_a_shared_key (pre mid post : VariableList)
    (a b : PlanVariable) :
  Key a = Key b ->
  Forall (fun c => Key c ≠ Key a) pre ->
  Forall (fun c => Key c ≠ Key a) post ->
  GetVarValueE (pre ++ a :: mid ++ b :: post) (Key a) = (Value a, None)
  /\ ToMap (pre ++ a :: mid ++ b :: post) !! Key a = Some (Value b).
Proof.
  intros Hkey Hpre Hpost. split.
  - rewrite GetVarValueE_skip by exact Hpre.
    simpl. rewrite String.eqb_refl. reflexivity.
  - rewrite Hkey in *. unfold ToMap.
    replace (pre ++ a :: mid ++ b :: post) with ((pre ++ a :: mid) ++ b :: post)
      by (rewrite <- app_assoc; reflexivity).
    apply ToMap_loop_last. exact Hpost.
Qed.

Lemma first_and_last_of_a_shared_key_witness :
  GetVarValueE [variable "j" "1"; variable "k" "old"; variable "x" "y"; secret_k;
                variable "z" "w"] "k" = ("old", None)
  /\ ToMap [variable "j" "1"; variable "k" "old"; variable "x" "y"; secret_k;
            variable "z" "w"] !! "k" = Some "new".
Proof.
  apply (first_and_last_of_a_shared_key [variable "j" "1"] [variable "x" "y"]
           [variable "z" "w"] (variable "k" "old") secret_k eq_refl);
    repeat constructor; discriminate.
Defined.

(** X6. The collapse is lossy in size only through repeated keys: the map
    never has more entries than the list, and has as many when the keys
    are pairwise distinct. *)
Theorem ToMap_size (vl : VariableList) :
  (size (ToMap vl) <= length vl)%nat
  /\ (NoDup (map Key vl) -> size (ToMap vl) = length vl).
Proof.
  rewrite <- size_dom. unfold ToMap.
  rewrite ToMap_loop_dom, dom_empty_L, (left_id_L ∅ (∪)). split.
  - induction vl as [|v vl IH]; cbn [map list_to_set length].
    + rewrite size_empty. lia.
    + rewrite size_union_alt, size_singleton.
      assert (size (list_to_set (map Key vl) ∖ {[Key v]} : gset string)
              <= size (list_to_set (map Key vl) : gset string))%nat
        by (apply subseteq_size; set_solver).
      lia.
  - intros Hnd. rewrite size_list_to_set by exact Hnd. apply length_map.
Qed.

Lemma ToMap_size_witness :
  (size (ToMap [variable "j" "1"; secret_k]) <= 2)%nat
  /\ size (ToMap [variable "j" "1"; secret_k]) = 2%nat.
Proof.
  destruct (ToMap_size [variable "j" "1"; secret_k]) as [Hle Heq].
  split; [exact Hle|]. apply Heq. repeat constructor; set_solver.
Defined.

(** ** The raw sub-client (raw.go) *)

Lemma prefix_append (p r : string) : String.prefix p (p +:+ r) = true.
Proof.
  induction p as [|c p IH]; simpl; [destruct r; reflexivity|].
  destruct (Ascii.ascii_dec c c) as [_|Hc]; [exact IH|contradiction].
Qed.

Lemma prefix_split (p s : string) :
  String.prefix p s = true -> exists r, s = p +:+ r.
Proof.
  revert s. induction p as [|c p IH]; intros s Hp.
  - exists s. reflexivity.
  - destruct s as [|d s]; simpl in Hp; [discriminate|].
    destruct (Ascii.ascii_dec c d) as [->|_]; [|discriminate].
    destruct (IH s Hp) as [r ->]. exists r. reflexivity.
Qed.

Lemma substring_all (s : string) : String.substring 0 (String.length s) s = s.
Proof. induction s as [|c s IH]; simpl; [reflexivity|]. rewrite IH. reflexivity. Qed.

Lemma substring_after (p r : string) :
  String.substring (String.length p)
    (String.length (p +:+ r) - String.length p)%nat (p +:+ r) = r.
Proof.
  induction p as [|c p IH]; simpl.
  - rewrite Nat.sub_0_r. apply substring_all.
  - exact IH.
Qed.

(** [TrimPrefix] removes one leading copy of the prefix and nothing
    else: a string that starts with the prefix loses it, and a string that
    does not start with it is returned as it is. *)
Theorem TrimPrefix_cases (s prefix : string) :
  (exists rest, s = prefix +:+ rest /\ TrimPrefix s prefix = rest)
  \/ ((forall rest, s ≠ prefix +:+ rest) /\ TrimPrefix s prefix = s).
Proof.
  unfold TrimPrefix. destruct (String.prefix prefix s) eqn:Hp.
  - left. destruct (prefix_split _ _ Hp) as [rest ->].
    exists rest. split; [reflexivity|]. apply substring_after.
  - right. split; [|reflexivity]. intros rest ->.
    rewrite prefix_append in Hp. discriminate.
Qed.

Lemma TrimPrefix_append (prefix rest : string) :
  TrimPrefix (prefix +:+ rest) prefix = rest.
Proof.
  unfold TrimPrefix. rewrite prefix_append. apply substring_after.
Qed.

Section RawProperties.

Context {W : Type} (client : Client W).

(** X7. A path given as the configured base URL followed by [p] is
    requested as [p]: whatever happens afterwards, the one request that
    [GetRaw] builds is a GET for [p]. *)
Theorem GetRaw_strips_base_url (p : string) (s : Net W) :
  built (snd (GetRaw client (BaseUrl client +:+ p) s))
    = built s ++ [(MethodGet, p)].
Proof.
  unfold GetRaw. rewrite TrimPrefix_append. go_unfold.
  destruct (RawRequest client MethodGet p None) as [request [e|]]; cbn;
    [reflexivity|].
  destruct request as [req0|]; cbn; [|reflexivity].
  destruct (RawDo client _ (server s)) as [[resp [e|]] w']; cbn; [reflexivity|].
  destruct resp as [r|]; cbn; [|reflexivity].
  destruct (negb (StatusCode r =? 200)%Z); cbn; [reflexivity|].
  destruct (ReadAll (Body r)) as [data [e|]]; reflexivity.
Qed.

(** X8. A nil error from [GetRaw] means that the server answered with
    status 200 and that the string returned is the whole body of that
    response, read without error. *)
Theorem GetRaw_nil_error (path body : string) (response : option Response)
    (s s' : Net W) :
  GetRaw client path s = (Returned (body, response, None), s') ->
  exists r : Response,
    response = Some r /\ StatusCode r = 200 /\ ReadAll (Body r) = (body, None).
Proof.
  unfold GetRaw. go_unfold.
  destruct (RawRequest client MethodGet _ None) as [request [e|]]; cbn;
    [discriminate|].
  destruct request as [req0|]; cbn; [|discriminate].
  destruct (RawDo client _ (server s)) as [[resp [e|]] w']; cbn; [discriminate|].
  destruct resp as [r|]; cbn; [|discriminate].
  destruct (Z.eqb_spec (StatusCode r) 200) as [Hcode|Hcode]; cbn; [|discriminate].
  destruct (ReadAll (Body r)) as [data [e|]] eqn:Hread; [discriminate|].
  intros Heq. injection Heq as <- <- <-.
  exists r. split; [reflexivity|]. split; [exact Hcode|exact Hread].
Qed.

(** X9. [GetRaw] dispatches at most one request, whatever the outcome
    (a return or a panic), and the request it dispatches carries the
    form-encoded content type among its [Content-Type] header values. *)
Theorem GetRaw_at_most_one_request (path : string) (s : Net W) :
  sent (snd (GetRaw client path s)) = sent s
  \/ exists r : Request,
       sent (snd (GetRaw client path s)) = sent s ++ [Some r]
       /\ "application/x-www-form-urlencoded"
            ∈ default [] (Header r !! "Content-Type").
Proof.
  unfold GetRaw. go_unfold.
  destruct (RawRequest client MethodGet _ None) as [request [e|]]; cbn;
    [left; reflexivity|].
  destruct request as [req0|]; cbn; [|left; reflexivity].
  right. exists (form_request req0). split.
  - unfold form_request.
    destruct (RawDo client _ (server s)) as [[resp [e|]] w']; cbn; [reflexivity|].
    destruct resp as [r|]; cbn; [|reflexivity].
    destruct (negb (StatusCode r =? 200)%Z); cbn; [reflexivity|].
    destruct (ReadAll (Body r)) as [data [e|]]; reflexivity.
  - unfold form_request, add_header, Values_Add. cbn.
    rewrite lookup_insert_eq. cbn. set_solver.
Qed.

End RawProperties.

Lemma GetRaw_nil_error_witness :
  GetRaw stub "/foo" (fresh [plans_reply 0 []])
    = (Returned ("", Some ok, None),
       after_dispatch (fresh [plans_reply 0 []]) MethodGet "/foo"
         (Some (form_request (bare_request MethodGet "/foo"))) [])
  /\ exists r : Response,
       Some ok = Some r /\ StatusCode r = 200 /\ ReadAll (Body r) = ("", None).
Proof.
  split; [reflexivity|].
  apply (GetRaw_nil_error stub "/foo" "" (Some ok) (fresh [plans_reply 0 []])
           (after_dispatch (fresh [plans_reply 0 []]) MethodGet "/foo"
              (Some (form_request (bare_request MethodGet "/foo"))) [])).
  reflexivity.
Defined.

(** ** The plan sub-client (plans.go, lines 64-235) *)

Lemma emptyStrings_pair (a b : string) :
  a ≠ "" -> b ≠ "" -> emptyStrings [a; b] = false.
Proof.
  intros Ha Hb. unfold emptyStrings. simpl.
  destruct a; [contradiction|]. destruct b; [contradiction|]. reflexivity.
Qed.

(** One case split on the next thing the code inspects. *)
Ltac go_case :=
  match goal with
  | |- context [NewRequest ?c ?m ?u ?b] =>
      destruct (NewRequest c m u b) as [[?|] [?|]] eqn:?
  | |- context [RawRequest ?c ?m ?u ?b] =>
      destruct (RawRequest c m u b) as [[?|] [?|]] eqn:?
  | |- context [Do ?c ?d ?r ?v ?w] =>
      destruct (Do c d r v w) as [[[[?|] ?] [?|]] ?] eqn:?
  | |- context [RawDo ?c ?r ?w] =>
      destruct (RawDo c r w) as [[[?|] [?|]] ?] eqn:?
  | |- context [Z.eqb ?a ?b] => destruct (Z.eqb_spec a b)
  | |- context [String.eqb ?a ?b] => destruct (String.eqb_spec a b)
  | |- context [PlanResponse_Plans ?p] =>
      destruct (PlanResponse_Plans p) as [?|] eqn:?
  | |- context [Plans_CollectionMetadata ?p] =>
      destruct (Plans_CollectionMetadata p) as [?|] eqn:?
  | |- context [Plan_VariableContext ?p] =>
      destruct (Plan_VariableContext p) as [?|] eqn:?
  | |- context [ReadAll ?b] => destruct (ReadAll b) as [? [?|]] eqn:?
  | |- context [match ?o with Some _ => _ | None => _ end] =>
      is_var o; destruct o
  end.

Ltac go_cases := go_unfold; cbn; repeat (go_case; cbn).

Section PlanProperties.

Context {W : Type} (client : Client W).

(** X10. The success flag of [CreateBranch] and its error say the same
    thing: the flag is [true] exactly when the error is nil, and then the
    response has status 200. *)
Theorem CreateBranch_flag_matches_error (planKey branchName : string)
    (options : option PlanCreateBranchOptions) (s s' : Net W)
    (b : bool) (response : option Response) (err : option error) :
  CreateBranch client planKey branchName options s
    = (Returned (b, response, err), s') ->
  (b = true <-> err = None)
  /\ (b = true -> exists r, response = Some r /\ StatusCode r = 200).
Proof.
  unfold CreateBranch. destruct (emptyStrings [planKey; branchName]);
    go_cases; intros Heq; try discriminate; injection Heq as <- <- <- <-.
  all: split; [split; intros; (discriminate || reflexivity)|].
  all: intros Hb; try discriminate.
  all: eexists; (split; [reflexivity|assumption]).
Qed.

(** X11. With a plan key and a branch name that are not empty,
    [CreateBranch] builds one PUT request for the branch path and
    dispatches it once, whatever the answer; the [vcsBranch] parameter is
    added exactly when options are given and name a branch, so nil options
    and an empty name dispatch the request as it was built. *)
Theorem CreateBranch_dispatches (planKey branchName : string)
    (options : option PlanCreateBranchOptions) (s : Net W) (req0 : Request) :
  planKey ≠ "" -> branchName ≠ "" ->
  NewRequest client MethodPut
    ("plan/" +:+ planKey +:+ "/branch/" +:+ branchName +:+ ".json") None
    = (Some req0, None) ->
  built (snd (CreateBranch client planKey branchName options s))
    = built s ++ [(MethodPut,
         "plan/" +:+ planKey +:+ "/branch/" +:+ branchName +:+ ".json")]
  /\ sent (snd (CreateBranch client planKey branchName options s))
       = sent s ++ [Some (branch_request options req0)].
Proof.
  intros Hk Hb Hnew. unfold CreateBranch, branch_request.
  rewrite emptyStrings_pair by assumption. cbn [negb]. go_unfold.
  rewrite Hnew. cbv beta iota.
  destruct options as [o|]; [destruct (VCSBranch o =? "")%string|];
    cbn; repeat (go_case; cbn); split; reflexivity.
Qed.

(** X12. An answer to the branch request with a status other than 200
    makes [CreateBranch] return [false], the response itself, and an error
    that carries the status code. *)
Theorem CreateBranch_unexpected_status (planKey branchName : string)
    (options : option PlanCreateBranchOptions) (s : Net W) (req0 : Request)
    (r : Response) (w' : W) :
  planKey ≠ "" -> branchName ≠ "" ->
  NewRequest client MethodPut
    ("plan/" +:+ planKey +:+ "/branch/" +:+ branchName +:+ ".json") None
    = (Some req0, None) ->
  Do client into_nil (Some (branch_request options req0)) tt (server s)
    = ((Some r, tt, None), w') ->
  StatusCode r ≠ 200 ->
  CreateBranch client planKey branchName options s
    = (Returned (false, Some r,
         Some (simpleError ("Create returned " +:+ Itoa (StatusCode r)))),
       after_dispatch s MethodPut
         ("plan/" +:+ planKey +:+ "/branch/" +:+ branchName +:+ ".json")
         (Some (branch_request options req0)) w').
Proof.
  intros Hk Hb Hnew Hdo Hcode. unfold CreateBranch, branch_request in *.
  rewrite emptyStrings_pair by assumption. cbn [negb]. go_unfold.
  rewrite Hnew. cbv beta iota. apply Z.eqb_neq in Hcode.
  destruct options as [o|]; [destruct (VCSBranch o =? "")%string|];
    cbn in *; rewrite Hdo; cbn; rewrite Hcode; reflexivity.
Qed.

(** X13. A 200 answer to the count probe that decodes to an envelope
    without a plan collection, or to a plan collection without its
    metadata, makes [GetNumber] panic on the dereference, and [List] with
    it. *)
Theorem GetNumber_missing_envelope_panics (s : Net W) (req0 : Request)
    (r : Response) (pr : PlanResponse) (w' : W) :
  NewRequest client MethodGet "plan.json" None = (Some req0, None) ->
  Do client into_PlanResponse (Some (probe req0)) PlanResponse_zero (server s)
    = ((Some r, pr, None), w') ->
  StatusCode r = 200 ->
  PlanResponse_Plans pr = None
  \/ (exists pl, PlanResponse_Plans pr = Some pl
        /\ Plans_CollectionMetadata pl = None) ->
  GetNumber client s
    = (Panicked, after_dispatch s MethodGet "plan.json" (Some (probe req0)) w')
  /\ List client s
       = (Panicked, after_dispatch s MethodGet "plan.json" (Some (probe req0)) w').
Proof.
  intros Hnew Hdo Hcode Hmissing.
  assert (Hnum : GetNumber client s
    = (Panicked, after_dispatch s MethodGet "plan.json" (Some (probe req0)) w')).
  { unfold GetNumber. go_unfold. rewrite Hnew. cbn. fold (probe req0).
    rewrite Hdo. cbn. apply Z.eqb_eq in Hcode. rewrite Hcode. cbn.
    destruct Hmissing as [->|(pl & -> & Hmeta)]; cbn; [reflexivity|].
    rewrite Hmeta. reflexivity. }
  split; [exact Hnum|].
  unfold List. unfold mbind at 1, Go_bind at 1, bind at 1. rewrite Hnum.
  reflexivity.
Qed.

(** X14. When the probe succeeded and the fetch that follows ends in a
    transport error or in a status other than 200, [List] returns an empty
    plan list with the response and the error of the fetch, after both
    requests were dispatched. *)
Theorem List_fetch_failure (s s1 : Net W) (N : Z) (resp1 : option Response)
    (req0 : Request) (resp : option Response) (pr : PlanResponse)
    (err : option error) (w2 : W) :
  GetNumber client s = (Returned (N, resp1, None), s1) ->
  NewRequest client MethodGet "plan.json" None = (Some req0, None) ->
  Do client into_PlanResponse (Some (fetch N req0)) PlanResponse_zero (server s1)
    = ((resp, pr, err), w2) ->
  is_Some err \/ (exists r, resp = Some r /\ StatusCode r ≠ 200) ->
  exists e : error,
    List client s
      = (Returned ([], resp, Some e),
         after_dispatch s1 MethodGet "plan.json" (Some (fetch N req0)) w2)
    /\ (err = Some e
        \/ err = None /\ exists r, resp = Some r
             /\ e = simpleError
                      ("Getting plan information returned " +:+ Status r)).
Proof.
  intros Hnum Hnew Hdo Hfail.
  unfold List. unfold mbind at 1, Go_bind at 1, bind at 1. rewrite Hnum.
  go_unfold. rewrite Hnew. cbn. fold (fetch N req0). rewrite Hdo. cbn.
  destruct err as [e|].
  - exists e. split; [reflexivity|]. left. reflexivity.
  - destruct Hfail as [[e He]|[r [-> Hcode]]]; [discriminate|].
    cbn. apply Z.eqb_neq in Hcode. rewrite Hcode. cbn.
    eexists. split; [reflexivity|]. right. split; [reflexivity|].
    exists r. split; reflexivity.
Qed.

(** X15. Whatever the outcome, [List] dispatches at most two requests,
    and it never returns plans together with an error. *)
Theorem List_never_partial (s : Net W) :
  (exists l : list (option Request),
     sent (snd (List client s)) = sent s ++ l /\ (length l <= 2)%nat)
  /\ forall (plans : list (option Plan)) (response : option Response) (e : error),
       fst (List client s) = Returned (plans, response, Some e) -> plans = [].
Proof.
  unfold List, GetNumber. go_cases.
  all: split;
    [ first
        [ exists []; split; [symmetry; apply app_nil_r|cbn; lia]
        | eexists [_]; split; [reflexivity|cbn; lia]
        | eexists [_; _]; split; [rewrite <- app_assoc; reflexivity|cbn; lia] ]
    | intros plans0 response0 err0 Heq; try discriminate;
      injection Heq as <- _ _; reflexivity ].
Qed.

(** X16. A client that cannot build requests touches no network: every
    method of the plan sub-client returns the builder's error with a nil
    response and an empty result, and nothing is dispatched. *)
Theorem build_failure_dispatches_nothing (e : error) (s : Net W) :
  (forall method urlStr, snd (NewRequest client method urlStr None) = Some e) ->
  GetNumber client s
    = (Returned (0, None, Some e), after_build s MethodGet "plan.json")
  /\ List client s
       = (Returned ([], None, Some e), after_build s MethodGet "plan.json")
  /\ (forall planKey,
        Disable client planKey s
          = (Returned (None, Some e),
             after_build s MethodDelete ("plan/" +:+ planKey +:+ "/enable"))
        /\ GetVars client planKey s
             = (Returned ([], None, Some e),
                after_build s MethodGet ("plan/" +:+ planKey)))
  /\ (forall planKey branchName options,
        planKey ≠ "" -> branchName ≠ "" ->
        CreateBranch client planKey branchName options s
          = (Returned (false, None, Some e),
             after_build s MethodPut
               ("plan/" +:+ planKey +:+ "/branch/" +:+ branchName +:+ ".json"))).
Proof.
  intros Hfail.
  assert (Hnew : forall method urlStr,
    exists request, NewRequest client method urlStr None = (request, Some e)).
  { intros method urlStr. specialize (Hfail method urlStr).
    destruct (NewRequest client method urlStr None) as [request err].
    cbn in Hfail. subst err. exists request. reflexivity. }
  assert (Hnum : GetNumber client s
    = (Returned (0, None, Some e), after_build s MethodGet "plan.json")).
  { unfold GetNumber. go_unfold.
    destruct (Hnew MethodGet "plan.json") as [request ->]. reflexivity. }
  split; [exact Hnum|]. split.
  { unfold List. unfold mbind at 1, Go_bind at 1, bind at 1. rewrite Hnum.
    reflexivity. }
  split.
  - intros planKey. split.
    + unfold Disable. go_unfold.
      destruct (Hnew MethodDelete ("plan/" +:+ planKey +:+ "/enable"))
        as [request ->]. reflexivity.
    + unfold GetVars. go_unfold.
      destruct (Hnew MethodGet ("plan/" +:+ planKey)) as [request ->].
      reflexivity.
  - intros planKey branchName options Hk Hb. unfold CreateBranch.
    rewrite emptyStrings_pair by assumption. cbn [negb]. go_unfold.
    destruct (Hnew MethodPut
                ("plan/" +:+ planKey +:+ "/branch/" +:+ branchName +:+ ".json"))
      as [request ->]. reflexivity.
Qed.

(** X17. [Disable] hands back what the dispatch returned, error or not:
    on a transport error the caller gets the response of the dispatch
    together with that error. *)
Theorem Disable_returns_dispatch_result (planKey : string) (s : Net W)
    (request : option Request) (response : option Response)
    (err : option error) (w' : W) :
  NewRequest client MethodDelete ("plan/" +:+ planKey +:+ "/enable") None
    = (request, None) ->
  Do client into_nil request tt (server s) = ((response, tt, err), w') ->
  Disable client planKey s
    = (Returned (response, err),
       after_dispatch s MethodDelete ("plan/" +:+ planKey +:+ "/enable")
         request w').
Proof.
  intros Hnew Hdo. unfold Disable. go_unfold. rewrite Hnew. cbn.
  rewrite Hdo. destruct err; reflexivity.
Qed.

(** X18. When the dispatch reports an error, [GetVars] returns no
    variables at all, whatever was decoded: the list is empty and the
    response and the error are those of the dispatch. *)
Theorem GetVars_dispatch_error (planKey : string) (s : Net W) (req0 : Request)
    (response : option Response) (plan : Plan) (e : error) (w' : W) :
  NewRequest client MethodGet ("plan/" +:+ planKey) None = (Some req0, None) ->
  Do client into_Plan (Some (expand_request req0)) Plan_zero (server s)
    = ((response, plan, Some e), w') ->
  GetVars client planKey s
    = (Returned ([], response, Some e),
       after_dispatch s MethodGet ("plan/" +:+ planKey)
         (Some (expand_request req0)) w').
Proof.
  intros Hnew Hdo. unfold GetVars. go_unfold. rewrite Hnew. cbn.
  fold (expand_request req0). rewrite Hdo. reflexivity.
Qed.

End PlanProperties.

Lemma last_name_absent (k : string) (ps : list Plan) :
  k ∉ map Plan_Key ps -> last_name k ps = None.
Proof.
  induction ps as [|p ps IH]; intros Hk; [reflexivity|].
  unfold last_name. rewrite filter_cons_False.
  - apply IH. intros Hin. apply Hk. right. exact Hin.
  - intros Heq. apply Hk. rewrite <- Heq. left.
Qed.

Lemma zip_keys_names (ps : list Plan) :
  zip (map Plan_Key ps) (map ShortName ps)
    = map (fun p => (Plan_Key p, ShortName p)) ps.
Proof. induction ps as [|p ps IH]; cbn; [reflexivity|]. rewrite IH. reflexivity. Qed.

Lemma last_name_unique (k : string) (ps : list Plan) :
  NoDup (map Plan_Key ps) ->
  (list_to_map (map (fun p => (Plan_Key p, ShortName p)) ps)
     : gmap string string) !! k = last_name k ps.
Proof.
  induction ps as [|p ps IH]; intros Hnd; [apply lookup_empty|].
  inversion Hnd as [|? ? Hfresh Hnd']; subst. cbn [map list_to_map foldr].
  unfold last_name. rewrite filter_cons.
  destruct (decide (Plan_Key p = k)) as [Hk|Hk].
  - rewrite last_cons.
    assert (Habs : last_name k ps = None)
      by (apply last_name_absent; rewrite <- Hk; exact Hfresh).
    unfold last_name in Habs. apply fmap_None in Habs. rewrite Habs.
    cbn. rewrite <- Hk. apply lookup_insert_eq.
  - specialize (IH Hnd'). unfold last_name in IH. rewrite <- IH.
    cbn. apply lookup_insert_ne. exact Hk.
Qed.

Section ProjectionsCompose.

Context {W : Type} (client : Client W).

(** X19. The three projections fit together. When [List] succeeds with no
    nil entry and pairwise distinct plan keys, the map of [NamesMap] is the
    pairing of the keys of [ListKeys] with the names of [ListNames],
    position by position, and it has one entry per plan. *)
Theorem NamesMap_pairs_keys_with_names (s s' : Net W) (ps : list Plan)
    (response : option Response) :
  List client s = (Returned (map Some ps, response, None), s') ->
  NoDup (map Plan_Key ps) ->
  exists (keys names : list string) (planMap : gmap string string),
    ListKeys client s = (Returned (keys, response, None), s')
    /\ ListNames client s = (Returned (names, response, None), s')
    /\ NamesMap client s = (Returned (planMap, response, None), s')
    /\ length keys = length ps /\ length names = length ps
    /\ planMap = list_to_map (zip keys names)
    /\ size planMap = length ps.
Proof.
  intros Hlist Hnd.
  destruct (NamesMap_loop_filled ps ∅ s') as [planMap [Hrun Hlook]].
  assert (HplanMap : planMap
            = list_to_map (map (fun p => (Plan_Key p, ShortName p)) ps)).
  { apply map_eq. intros k. rewrite Hlook, last_name_unique by exact Hnd.
    destruct (last_name k ps); [reflexivity|apply lookup_empty]. }
  exists (map Plan_Key ps), (map ShortName ps), planMap.
  split.
  { unfold ListKeys. unfold mbind at 1, Go_bind at 1, bind at 1.
    rewrite Hlist. go_unfold.
    rewrite (ListKeys_loop_filled ps [] (replicate (length (map Some ps)) ""));
      [reflexivity|].
    rewrite length_replicate, length_map. reflexivity. }
  split.
  { unfold ListNames. unfold mbind at 1, Go_bind at 1, bind at 1.
    rewrite Hlist. go_unfold.
    rewrite (ListNames_loop_filled ps [] (replicate (length (map Some ps)) ""));
      [reflexivity|].
    rewrite length_replicate, length_map. reflexivity. }
  split.
  { unfold NamesMap. unfold mbind at 1, Go_bind at 1, bind at 1.
    rewrite Hlist. go_unfold. rewrite Hrun. reflexivity. }
  split; [apply length_map|]. split; [apply length_map|].
  split; [rewrite zip_keys_names; exact HplanMap|].
  rewrite HplanMap, <- size_dom, dom_list_to_map_L.
  replace ((map (fun p => (Plan_Key p, ShortName p)) ps).*1)
    with (map Plan_Key ps)
    by (clear; induction ps as [|p ps IH]; cbn; [reflexivity|];
        rewrite <- IH; reflexivity).
  rewrite size_list_to_set by exact Hnd. apply length_map.
Qed.

End ProjectionsCompose.

(** ** The further statements at the stub server *)

Lemma CreateBranch_dispatches_witness :
  built (snd (CreateBranch stub "PRJ-A" "fix"
                (Some {| VCSBranch := "feature/fix" |}) (fresh [server_error])))
    = [(MethodPut, "plan/PRJ-A/branch/fix.json")]
  /\ sent (snd (CreateBranch stub "PRJ-A" "fix"
                  (Some {| VCSBranch := "feature/fix" |}) (fresh [server_error])))
       = [Some (add_query "vcsBranch" "feature/fix"
                  (bare_request MethodPut
                     "/rest/api/latest/plan/PRJ-A/branch/fix.json"))].
Proof.
  apply (CreateBranch_dispatches stub "PRJ-A" "fix"
           (Some {| VCSBranch := "feature/fix" |}) (fresh [server_error])
           (bare_request MethodPut "/rest/api/latest/plan/PRJ-A/branch/fix.json"));
    [discriminate|discriminate|reflexivity].
Defined.

Lemma CreateBranch_unexpected_status_witness :
  CreateBranch stub "PRJ-A" "fix" None (fresh [server_error])
    = (Returned (false, reply_response server_error,
         Some (simpleError "Create returned 500")),
       after_dispatch (fresh [server_error]) MethodPut
         "plan/PRJ-A/branch/fix.json"
         (Some (bare_request MethodPut
                  "/rest/api/latest/plan/PRJ-A/branch/fix.json")) []).
Proof.
  apply (CreateBranch_unexpected_status stub "PRJ-A" "fix" None
           (fresh [server_error])
           (bare_request MethodPut "/rest/api/latest/plan/PRJ-A/branch/fix.json")
           (response_of 500 "500 Internal Server Error" "") []);
    [discriminate|discriminate|reflexivity|reflexivity|cbn; lia].
Defined.

Lemma GetNumber_missing_envelope_panics_witness :
  GetNumber stub (fresh [vars_reply 200 None])
    = (Panicked,
       after_dispatch (fresh [vars_reply 200 None]) MethodGet "plan.json"
         (Some (probe plan_json)) [])
  /\ List stub (fresh [vars_reply 200 None])
       = (Panicked,
          after_dispatch (fresh [vars_reply 200 None]) MethodGet "plan.json"
            (Some (probe plan_json)) []).
Proof.
  apply (GetNumber_missing_envelope_panics stub (fresh [vars_reply 200 None])
           plan_json (response_of 200 "" "") PlanResponse_zero []);
    [reflexivity|reflexivity|reflexivity|left; reflexivity].
Defined.

Lemma List_fetch_failure_witness :
  List stub (fresh [plans_reply 2 []; unauthorized])
    = (Returned ([], reply_response unauthorized,
         Some (simpleError "Getting plan information returned 401 Unauthorized")),
       {| server := [];
          built := [(MethodGet, "plan.json"); (MethodGet, "plan.json")];
          sent := [Some (probe plan_json); Some (fetch 2 plan_json)] |}).
Proof.
  destruct (List_fetch_failure stub (fresh [plans_reply 2 []; unauthorized])
              (after_dispatch (fresh [plans_reply 2 []; unauthorized]) MethodGet
                 "plan.json" (Some (probe plan_json)) [unauthorized])
              2 (Some ok) plan_json (reply_response unauthorized)
              PlanResponse_zero None [])
    as (e & Hlist & He).
  - reflexivity.
  - reflexivity.
  - reflexivity.
  - right. eexists. split; [reflexivity|]. cbn. lia.
  - destruct He as [He|[_ (r & Hr & He)]]; [discriminate|].
    injection Hr as <-. subst e. exact Hlist.
Defined.

Lemma build_failure_dispatches_nothing_witness :
  GetNumber unset (fresh [server_error])
    = (Returned (0, None, Some (clientError "base URL is not set")),
       after_build (fresh [server_error]) MethodGet "plan.json")
  /\ List unset (fresh [server_error])
       = (Returned ([], None, Some (clientError "base URL is not set")),
          after_build (fresh [server_error]) MethodGet "plan.json").
Proof.
  destruct (build_failure_dispatches_nothing unset
              (clientError "base URL is not set") (fresh [server_error]))
    as (Hnum & Hlist & _).
  - intros method urlStr. reflexivity.
  - split; [exact Hnum|exact Hlist].
Defined.

Lemma Disable_returns_dispatch_result_witness :
  Disable stub "PRJ-A" (fresh [])
    = (Returned (None, Some (clientError "connection refused")),
       after_dispatch (fresh []) MethodDelete "plan/PRJ-A/enable"
         (Some (bare_request MethodDelete "/rest/api/latest/plan/PRJ-A/enable"))
         []).
Proof.
  apply (Disable_returns_dispatch_result stub "PRJ-A" (fresh [])
           (Some (bare_request MethodDelete "/rest/api/latest/plan/PRJ-A/enable"))
           None (Some (clientError "connection refused")) []);
    reflexivity.
Defined.

Lemma GetVars_dispatch_error_witness :
  GetVars stub "PRJ-B" (fresh [])
    = (Returned ([], None, Some (clientError "connection refused")),
       after_dispatch (fresh []) MethodGet "plan/PRJ-B"
         (Some (expand_request
                  (bare_request MethodGet "/rest/api/latest/plan/PRJ-B")))
         []).
Proof.
  apply (GetVars_dispatch_error stub "PRJ-B" (fresh [])
           (bare_request MethodGet "/rest/api/latest/plan/PRJ-B")
           None Plan_zero (clientError "connection refused") []);
    reflexivity.
Defined.

Lemma NamesMap_pairs_keys_with_names_witness :
  exists (keys names : list string) (planMap : gmap string string),
    ListKeys stub listing = (Returned (keys, Some ok, None), listed)
    /\ ListNames stub listing = (Returned (names, Some ok, None), listed)
    /\ NamesMap stub listing = (Returned (planMap, Some ok, None), listed)
    /\ length keys = length two_plans /\ length names = length two_plans
    /\ planMap = list_to_map (zip keys names)
    /\ size planMap = length two_plans.
Proof.
  apply (NamesMap_pairs_keys_with_names stub listing listed two_plans (Some ok)).
  - reflexivity.
  - repeat constructor; set_solver.
Defined.

(** ** The result sub-client (results.go) *)

Lemma append_assoc (a b c : string) : (a +:+ b) +:+ c = a +:+ (b +:+ c).
Proof.
  induction a as [|x a IH]; [reflexivity|].
  change (String x ((a +:+ b) +:+ c) = String x (a +:+ (b +:+ c))).
  rewrite IH. reflexivity.
Qed.

Ltac result_case :=
  match goal with
  | |- context [DoResult ?c ?d ?r ?v ?w] =>
      destruct (DoResult c d r v w) as [[[[?|] ?] [?|]] ?] eqn:?
  | |- context [ResultsResponse_Results ?p] =>
      destruct (ResultsResponse_Results p) as [?|] eqn:?
  | _ => go_case
  end.

Ltac result_cases :=
  unfold client_DoResult in *; go_unfold; cbn; repeat (result_case; cbn).

Section ResultProperties.

Context {W : Type} (rc : ResultClient W).

(** X20. The two expanded fetches are one operation: [GetLatestExpanded]
    of a key is [GetExpanded] of that key followed by [-latest], request
    for request and outcome for outcome. *)
Theorem GetLatestExpanded_is_GetExpanded (key : string) (expand : list string) :
  GetLatestExpanded rc key expand = GetExpanded rc (key +:+ "-latest") expand.
Proof.
  unfold GetLatestExpanded, GetExpanded. rewrite append_assoc. reflexivity.
Qed.

(** X21. Once its request is built, [GetExpanded] dispatches exactly one
    request, whatever the answer, and that request carries exactly the joined expansion list under [expand]
    and exactly [true] under [includeAllStates], whatever the request
    builder had put under these two keys; every other query parameter,
    the method, the path and the headers are those of the built
    request. *)
Theorem GetExpanded_query (key : string) (expand : list string) (s : Net W)
    (req0 : Request) :
  NewRequest (plain rc) MethodGet ("result/" +:+ key) None = (Some req0, None) ->
  exists r : Request,
    sent (snd (GetExpanded rc key expand s)) = sent s ++ [Some r]
    /\ RawQuery (Request_URL r) !! "expand" = Some [Join expand ","]
    /\ RawQuery (Request_URL r) !! "includeAllStates" = Some ["true"]
    /\ (forall k, k ≠ "expand" -> k ≠ "includeAllStates" ->
          RawQuery (Request_URL r) !! k = RawQuery (Request_URL req0) !! k)
    /\ Method r = Method req0
    /\ Path (Request_URL r) = Path (Request_URL req0)
    /\ Header r = Header req0.
Proof.
  intros Hnew.
  exists (set_query "includeAllStates" "true"
            (set_query "expand" (Join expand ",") req0)).
  split.
  { unfold GetExpanded, client_DoResult. go_unfold. rewrite Hnew. cbn.
    repeat (result_case; cbn); reflexivity. }
  unfold set_query, Values_Set. cbn.
  split; [rewrite lookup_insert_ne by discriminate; apply lookup_insert_eq|].
  split; [apply lookup_insert_eq|].
  split; [|repeat split].
  intros k Hexpand Hall. rewrite !lookup_insert_ne by congruence. reflexivity.
Qed.

(** X22. The four single-result fetches never return a result together
    with an error, and never return neither: the result is non-nil
    exactly when the error is nil, and then the response has status
    200. *)
Theorem single_result_matches_error (key : string) (expand : list string)
    (s : Net W) :
  result_matches_error (fst (NumberedResult rc key s))
  /\ result_matches_error (fst (LatestResult rc key s))
  /\ result_matches_error (fst (GetExpanded rc key expand s))
  /\ result_matches_error (fst (GetLatestExpanded rc key expand s)).
Proof.
  assert (Hnum : forall k, result_matches_error (fst (NumberedResult rc k s))).
  { intros k. unfold NumberedResult, result_matches_error. result_cases.
    all: try exact I.
    all: split; [split; intros H; first
                   [ discriminate | reflexivity | destruct H; discriminate
                   | eexists; reflexivity ]|].
    all: intros H; try discriminate; eexists; (split; [reflexivity|assumption]). }
  assert (Hexp : forall k, result_matches_error (fst (GetExpanded rc k expand s))).
  { intros k. unfold GetExpanded, result_matches_error. result_cases.
    all: try exact I.
    all: split; [split; intros H; first
                   [ discriminate | reflexivity | destruct H; discriminate
                   | eexists; reflexivity ]|].
    all: intros H; try discriminate; eexists; (split; [reflexivity|assumption]). }
  split; [apply Hnum|]. split.
  - specialize (Hnum (key +:+ "-latest")). unfold LatestResult.
    unfold mbind, Go_bind, bind at 1.
    destruct (NumberedResult rc (key +:+ "-latest") s)
      as [[[[result resp] err]|] s1]; exact Hnum.
  - split; [apply Hexp|]. unfold GetLatestExpanded. rewrite append_assoc.
    exact (Hexp (key +:+ "-latest")).
Qed.

(** X23. [ListResults] fetches one page and no more: a nil error means
    that the one request it built was dispatched once, answered with
    status 200, and that the list returned is the item list of that
    answer, whatever total the envelope reports. *)
Theorem ListResults_single_page (key : string) (s s' : Net W)
    (results : list Result) (response : option Response) :
  ListResults rc key s = (Returned (results, response, None), s') ->
  exists (request : option Request) (r : Response) (decoded : ResultsResponse)
         (page : Results),
    NewRequest (plain rc) MethodGet (listResultsURL rc key) None = (request, None)
    /\ DoResult rc into_ResultsResponse request ResultsResponse_zero (server s)
         = ((Some r, decoded, None), server s')
    /\ response = Some r /\ StatusCode r = 200
    /\ ResultsResponse_Results decoded = Some page
    /\ results = Results_Result page
    /\ sent s' = sent s ++ [request]
    /\ built s' = built s ++ [(MethodGet, listResultsURL rc key)].
Proof.
  unfold ListResults. unfold client_DoResult. go_unfold.
  destruct (NewRequest (plain rc) MethodGet (listResultsURL rc key) None)
    as [request [e|]] eqn:Hnew; cbn; [discriminate|].
  destruct (DoResult rc into_ResultsResponse request ResultsResponse_zero
              (server s)) as [[[resp decoded] [e|]] w'] eqn:Hdo; cbn;
    [discriminate|].
  destruct resp as [r|]; cbn; [|discriminate].
  destruct (Z.eqb_spec (StatusCode r) 200) as [Hcode|Hcode]; cbn; [|discriminate].
  destruct (ResultsResponse_Results decoded) as [page|] eqn:Hpage; cbn;
    [|discriminate].
  intros Heq. injection Heq as <- <- <-.
  exists request, r, decoded, page. repeat split; assumption || reflexivity.
Qed.

End ResultProperties.

Lemma CreateBranch_flag_matches_error_witness :
  CreateBranch stub "PRJ-A" "fix" None (fresh [plans_reply 0 []])
    = (Returned (true, Some ok, None),
       after_dispatch (fresh [plans_reply 0 []]) MethodPut
         "plan/PRJ-A/branch/fix.json"
         (Some (bare_request MethodPut
                  "/rest/api/latest/plan/PRJ-A/branch/fix.json")) [])
  /\ (true = true <-> @None error = None)
  /\ (true = true -> exists r, Some ok = Some r /\ StatusCode r = 200).
Proof.
  split; [reflexivity|].
  apply (CreateBranch_flag_matches_error stub "PRJ-A" "fix" None
           (fresh [plans_reply 0 []])
           (after_dispatch (fresh [plans_reply 0 []]) MethodPut
              "plan/PRJ-A/branch/fix.json"
              (Some (bare_request MethodPut
                       "/rest/api/latest/plan/PRJ-A/branch/fix.json")) [])
           true (Some ok) None).
  reflexivity.
Defined.

Lemma List_never_partial_witness :
  fst (List stub (fresh [plans_reply 2 []; unauthorized]))
    = Returned ([], reply_response unauthorized,
        Some (simpleError "Getting plan information returned 401 Unauthorized"))
  /\ @nil (option Plan) = [].
Proof.
  split; [reflexivity|].
  destruct (List_never_partial stub (fresh [plans_reply 2 []; unauthorized]))
    as [_ Hnone].
  apply (Hnone [] (reply_response unauthorized)
           (simpleError "Getting plan information returned 401 Unauthorized")).
  reflexivity.
Defined.

Lemma GetExpanded_query_witness :
  exists r : Request,
    sent (snd (GetExpanded result_stub "PRJ-A-7"
                 [PlanExpandResults; PlanExpandArtifacts]
                 (result_fresh [one_page])))
      = [Some r]
    /\ RawQuery (Request_URL r) !! "expand"
         = Some ["stages.stage.results.result,artifacts"]
    /\ RawQuery (Request_URL r) !! "includeAllStates" = Some ["true"].
Proof.
  destruct (GetExpanded_query result_stub "PRJ-A-7"
              [PlanExpandResults; PlanExpandArtifacts] (result_fresh [one_page])
              (bare_request MethodGet "/rest/api/latest/result/PRJ-A-7") eq_refl)
    as (r & Hsent & Hexpand & Hall & _).
  exists r. split; [exact Hsent|]. split; [exact Hexpand|exact Hall].
Defined.

Lemma ListResults_single_page_witness :
  ListResults result_stub "PRJ-A" (result_fresh [one_page])
    = (Returned ([build_7], rr_response one_page, None),
       after_dispatch (result_fresh [one_page]) MethodGet "result/PRJ-A"
         (Some (bare_request MethodGet "/rest/api/latest/result/PRJ-A")) [])
  /\ exists (request : option Request) (r : Response)
            (decoded : ResultsResponse) (page : Results),
       NewRequest (plain result_stub) MethodGet
         (listResultsURL result_stub "PRJ-A") None = (request, None)
       /\ DoResult result_stub into_ResultsResponse request ResultsResponse_zero
            [one_page] = ((Some r, decoded, None), [])
       /\ rr_response one_page = Some r /\ StatusCode r = 200
       /\ ResultsResponse_Results decoded = Some page
       /\ [build_7] = Results_Result page
       /\ [Some (bare_request MethodGet "/rest/api/latest/result/PRJ-A")]
            = [] ++ [request]
       /\ [(MethodGet, "result/PRJ-A")]
            = [] ++ [(MethodGet, listResultsURL result_stub "PRJ-A")].
Proof.
  split; [reflexivity|].
  apply (ListResults_single_page result_stub "PRJ-A" (result_fresh [one_page])
           (after_dispatch (result_fresh [one_page]) MethodGet "result/PRJ-A"
              (Some (bare_request MethodGet "/rest/api/latest/result/PRJ-A"))
              [])
           [build_7] (rr_response one_page)).
  reflexivity.
Defined.
